(** * RAG-Application: the chunker, the ingestion loop and the answering engine

    A shallow embedding of [ingest_pdfs_blob.py] and [rag_chatbot_app.py].

    - Python [int] is [Z]; a [str] is a [string] whose characters are the
      code points below 256; a [list] of [str] is a [list string].
    - A Python call either returns, raises, or does not come back: [outcome].
      Loops run on fuel, one unit per evaluation of the loop condition.
    - Lists that are shared between caller and callee live in a heap
      ([gmap loc (list message)]); a Python variable holding such a list is a
      location. *)

From Stdlib Require Import ZArith QArith Ascii String Lia.
From stdpp Require Import base list strings gmap pretty.

Local Open Scope Z_scope.

(** ** Outcomes of a call *)

(** The error classes the specification names, and [IndexError] for
    [choices[0]] on an empty list.  All are subclasses of [Exception]. *)
Inductive exn_class :=
  | ConfigurationError
  | ExtractionError
  | ProviderError
  | StoreError
  | IndexError.

(** An exception object: its class and what [str(e)] gives. *)
Record exn := Exn { exn_cls : exn_class; exn_str : string }.

Inductive outcome (A : Type) :=
  | Returned (a : A)
  | Raised (e : exn)
  | OutOfFuel.
Arguments Returned {A} a.
Arguments Raised {A} e.
Arguments OutOfFuel {A}.

#[global] Instance exn_class_eq_dec : EqDecision exn_class.
Proof. solve_decision. Defined.

(** ** Python string and list primitives *)

Module Py.

(** [str.isspace] on one character, for code points below 256:
    TAB..CR, FS..US, SPACE, NEL (0x85) and NBSP (0xA0). *)
Definition isspace (c : ascii) : bool :=
  let n := N.to_nat (N_of_ascii c) in
  ((9 <=? n) && (n <=? 13) || (28 <=? n) && (n <=? 32)
   || (n =? 133) || (n =? 160))%nat.

Definition is_empty (s : string) : bool :=
  match s with EmptyString => true | String _ _ => false end.

(** The scan of [str.split()] with no separator: [cur] is the word being
    read; a whitespace character closes it, an empty word is dropped. *)
Fixpoint split_from (cur : string) (s : string) : list string :=
  match s with
  | EmptyString => if is_empty cur then [] else [cur]
  | String c s' =>
      if isspace c
      then (if is_empty cur then split_from EmptyString s'
            else cur :: split_from EmptyString s')
      else split_from (cur +:+ String c EmptyString) s'
  end.

Definition split (s : string) : list string := split_from EmptyString s.

(** [sep.join(l)] *)
Fixpoint join (sep : string) (l : list string) : string :=
  match l with
  | [] => EmptyString
  | [x] => x
  | x :: rest => x +:+ sep +:+ join sep rest
  end.

(** One bound of a slice with step 1, as [PySlice_AdjustIndices] clamps it. *)
Definition adjust_index (len i : Z) : Z :=
  if i <? 0 then Z.max 0 (i + len) else Z.min i len.

(** [l[start:stop]] *)
Definition slice {A} (l : list A) (start stop : Z) : list A :=
  let n := Z.of_nat (length l) in
  let lo := adjust_index n start in
  let hi := adjust_index n stop in
  take (Z.to_nat (hi - lo)) (drop (Z.to_nat lo) l).

(** [s.endswith(suffix)] *)
Definition endswith (s suffix : string) : bool :=
  let n := String.length s in
  let m := String.length suffix in
  ((m <=? n)%nat && String.eqb (String.substring (n - m) m s) suffix).

End Py.

(** ** [ingest_pdfs_blob.py]: [chunk_text] *)

(** The [while start < len(words)] loop; [chunks] is the list built so far. *)
Fixpoint chunk_loop (fuel : nat) (words : list string) (chunk_size overlap : Z)
    (start : Z) (chunks : list string) : outcome (list string) :=
  match fuel with
  | O => OutOfFuel
  | S fuel' =>
      if start <? Z.of_nat (length words) then
        let end_ := start + chunk_size in
        let chunk := Py.join " " (Py.slice words start end_) in
        chunk_loop fuel' words chunk_size overlap
          (start + (chunk_size - overlap)) (chunks ++ [chunk])
      else Returned chunks
  end.

Definition chunk_text (fuel : nat) (text : string) (chunk_size overlap : Z)
  : outcome (list string) :=
  let words := Py.split text in
  chunk_loop fuel words chunk_size overlap 0 [].

Definition default_chunk_size : Z := 500.
Definition default_overlap : Z := 50.

(** ** A state-and-exception monad for the two scripts *)

Definition M (S A : Type) : Type := S -> outcome A * S.

#[global] Instance M_ret {S} : MRet (M S) := fun A (a : A) (s : S) => (Returned a, s).

#[global] Instance M_bind {S} : MBind (M S) :=
  fun A B (f : A -> M S B) (m : M S A) (s : S) =>
    match m s with
    | (Returned a, s') => f a s'
    | (Raised e, s') => (Raised e, s')
    | (OutOfFuel, s') => (OutOfFuel, s')
    end.

(** A pure computation that may raise or run out of fuel, inside [M]. *)
Definition lift {S A} (o : outcome A) : M S A := fun s => (o, s).

Definition modify {S} (f : S -> S) : M S unit := fun s => (Returned tt, f s).

Definition gets {S A} (f : S -> A) : M S A := fun s => (Returned (f s), s).

(** [try: body except Exception as e: handler(e)] *)
Definition try_except {S A} (body : M S A) (handler : exn -> M S A) : M S A :=
  fun s =>
    match body s with
    | (Raised e, s') => handler e s'
    | r => r
    end.

Definition nl : string := String (ascii_of_nat 10) EmptyString.

(** ** [ingest_pdfs_blob.py]: reading a blob and the ingestion loop *)

(** A blob of the container: its name, and what downloading it and running
    [PdfReader] and [extract_text] over its pages gives (the page texts, or
    the exception one of these raises). *)
Record blob := Blob { blob_name : string; blob_pages : outcome (list string) }.

Definition read_pdf_from_blob (blob_client : blob) : outcome string :=
  match blob_pages blob_client with
  | Returned pages =>
      Returned
        (fold_left
           (fun text page_text =>
              if Py.is_empty page_text then text else text +:+ page_text +:+ nl)
           pages EmptyString)
  | Raised e => Raised e
  | OutOfFuel => OutOfFuel
  end.

Section Ingestion.

(** The embedding vector is opaque to the script. *)
Variable vector : Type.

(** [openai.embeddings.create(model=..., input=chunk).data[0].embedding] *)
Variable embed : string -> outcome vector.

(** [str(uuid.uuid4())], as the [n]-th identifier drawn in this run. *)
Variable uuid4 : nat -> string.

(** The document uploaded for one chunk. *)
Record record := Record_ { rec_id : string; rec_content : string; rec_embedding : vector }.

(** [search_client.upload_documents]: [Some e] when the call raises [e]. *)
Variable upload_fault : list record -> option exn.

Record ingest_state := IngestState {
  index_store : list record;   (* the corpus of the Index Store *)
  uuids_drawn : nat;
  stdout : list string
}.

Definition print (line : string) : M ingest_state unit :=
  modify (fun s => IngestState (index_store s) (uuids_drawn s) (stdout s ++ [line])).

Definition fresh_uuid : M ingest_state string :=
  fun s => (Returned (uuid4 (uuids_drawn s)),
            IngestState (index_store s) (S (uuids_drawn s)) (stdout s)).

Definition upload_documents (documents : list record) : M ingest_state unit :=
  fun s =>
    match upload_fault documents with
    | Some e => (Raised e, s)
    | None => (Returned tt,
               IngestState (index_store s ++ documents) (uuids_drawn s) (stdout s))
    end.

(** [for chunk in chunks: ... docs_to_upload.append({...})] *)
Fixpoint embed_chunks (chunks : list string) (docs_to_upload : list record)
  : M ingest_state (list record) :=
  match chunks with
  | [] => mret docs_to_upload
  | chunk :: rest =>
      vector_ ← lift (embed chunk);
      id ← fresh_uuid;
      embed_chunks rest (docs_to_upload ++ [Record_ id chunk vector_])
  end.

(** The body of [for blob in container_client.list_blobs()]. *)
Definition process_blob (fuel : nat) (b : blob) : M ingest_state unit :=
  if Py.endswith (blob_name b) ".pdf" then
    print ("Processing " +:+ blob_name b +:+ " from storage...");;
    text ← lift (read_pdf_from_blob b);
    chunks ← lift (chunk_text fuel text default_chunk_size default_overlap);
    docs_to_upload ← embed_chunks chunks [];
    match docs_to_upload with
    | _ :: _ =>
        upload_documents docs_to_upload;;
        print ("Uploaded " +:+ pretty (length docs_to_upload)
               +:+ " chunks from " +:+ blob_name b)
    | [] => print ("No chunks to upload for " +:+ blob_name b)
    end
  else mret tt.

Fixpoint ingest (fuel : nat) (blobs : list blob) : M ingest_state unit :=
  match blobs with
  | [] => mret tt
  | b :: rest => process_blob fuel b;; ingest fuel rest
  end.

End Ingestion.

Arguments Record_ {vector} _ _ _.
Arguments rec_id {vector} _.
Arguments rec_content {vector} _.
Arguments rec_embedding {vector} _.
Arguments IngestState {vector} _ _ _.
Arguments index_store {vector} _.
Arguments uuids_drawn {vector} _.
Arguments stdout {vector} _.

(** ** [rag_chatbot_app.py] *)

(** A chat message, the dict [{"role": ..., "content": ...}].  The script
    never updates a message dict after building it, so a message is a value;
    the lists that hold them are shared objects and live in the heap. *)
Record message := Msg { role : string; content : string }.

#[global] Instance message_eq_dec : EqDecision message.
Proof. solve_decision. Defined.

Definition loc := positive.

(** The heap of list objects, and the log of the heaps an observer could have
    seen: one snapshot after each statement of the call. *)
Record chat_state := ChatState {
  heap : gmap loc (list message);
  seen : list (gmap loc (list message))
}.

(** What is at a location; a Python reference is never dangling. *)
Definition deref (h : gmap loc (list message)) (l : loc) : list message :=
  default [] (h !! l).

Definition observe : M chat_state unit :=
  modify (fun s => ChatState (heap s) (seen s ++ [heap s])).

(** [l.append(m)]: the list object at [l] is updated in place. *)
Definition list_append (l : loc) (m : message) : M chat_state unit :=
  modify (fun s => ChatState (<[l := deref (heap s) l ++ [m]]> (heap s)) (seen s));;
  observe.

(** [copy.deepcopy(l)]: a new list object with the same content. *)
Definition deepcopy (l : loc) : M chat_state loc :=
  fun s =>
    let l' := fresh (dom (heap s)) in
    let h' := <[l' := deref (heap s) l]> (heap s) in
    (Returned l', ChatState h' (seen s ++ [h'])).

Definition system_prompt : string :=
  "You are a helpful assistant. Use the provided context to answer questions accurately. "
  +:+ "If the context is insufficient, give the most careful, concise answer possible. "
  +:+ "Do not hallucinate beyond the context.".

Section Chatbot.

(** [search_client.search(search_text=query, top=top_k)], iterated: the
    result documents in the order returned, or the exception raised. *)
Variable search : string -> Z -> outcome (list (gmap string string)).

(** [openai.chat.completions.create(model, messages, temperature, max_tokens)]:
    the [message.content] of each of [response.choices], or the exception
    raised.  The temperature 0.2 is passed as the rational 1/5. *)
Variable create : string -> list message -> Q -> Z -> outcome (list string).

Variable AZURE_OPENAI_CHAT_DEPLOYMENT : string.

(** The [for r in results] loop of [get_top_chunks]. *)
Fixpoint collect_content (results : list (gmap string string)) (chunks : list string)
  : list string :=
  match results with
  | [] => chunks
  | r :: rest =>
      match r !! "content" with
      | Some content_ =>
          if Py.is_empty content_ then collect_content rest chunks
          else collect_content rest (chunks ++ [content_])
      | None => collect_content rest chunks
      end
  end.

Definition get_top_chunks (query : string) (top_k : Z) : M chat_state (list string) :=
  results ← lift (search query top_k);
  observe;;
  mret (collect_content results []).

(** [response.choices[0].message.content] *)
Definition first_choice (choices : list string) : outcome string :=
  match choices with
  | c :: _ => Returned c
  | [] => Raised (Exn IndexError "list index out of range")
  end.

Definition context_prompt (context_text user_query : string) : string :=
  "Context:" +:+ nl +:+ context_text +:+ nl +:+ nl +:+ "Question: " +:+ user_query.

(** ["\n".join(context_chunks) if context_chunks else ...] *)
Definition context_text_of (context_chunks : list string) : string :=
  match context_chunks with
  | _ :: _ => Py.join nl context_chunks
  | [] => EmptyString
  end.

Definition generate_answer (user_query : string) (chat_history : loc)
  : M chat_state (string * loc) :=
  context_chunks ← get_top_chunks user_query 10;
  let context_text := context_text_of context_chunks in
  messages ← deepcopy chat_history;
  list_append messages (Msg "system" system_prompt);;
  list_append messages (Msg "user" (context_prompt context_text user_query));;
  answer ← try_except
    (sent ← gets (fun s => deref (heap s) messages);
     choices ← lift (create AZURE_OPENAI_CHAT_DEPLOYMENT sent (1 # 5)%Q 1000);
     observe;;
     lift (first_choice choices))
    (fun e => mret ("Error generating response: " +:+ exn_str e));
  list_append chat_history (Msg "user" user_query);;
  list_append chat_history (Msg "assistant" answer);;
  mret (answer, chat_history).

End Chatbot.

(** ** Notions used in the statements *)

(** No character of [s] is whitespace. *)
Fixpoint no_space (s : string) : bool :=
  match s with
  | EmptyString => true
  | String c s' => negb (Py.isspace c) && no_space s'
  end.

(** A word: non-empty and free of whitespace. *)
Definition is_word (w : string) : bool := negb (Py.is_empty w) && no_space w.

(** The words of the [i]-th window of width [chunk_size] when windows start
    every [step] words. *)
Definition window (words : list string) (chunk_size step : Z) (i : nat) : list string :=
  take (Z.to_nat chunk_size) (drop (i * Z.to_nat step) words).

(** How many windows start before the end of [n] words. *)
Definition n_chunks (n : nat) (step : Z) : nat :=
  Z.to_nat ((Z.of_nat n + step - 1) / step).

(** A run that never comes back: no amount of fuel is enough. *)
Definition diverges {A} (run : nat -> outcome A) : Prop :=
  forall fuel, run fuel = OutOfFuel.

(** What an observer holding the list at [l] has seen of it: its content
    after each statement of the call. *)
Definition observations (l : loc) (s : chat_state) : list (list message) :=
  map (fun h => deref h l) (seen s).

(** The two messages [generate_answer] builds for the prompt. *)
Definition system_message : message := Msg "system" system_prompt.

Definition context_message (results : list (gmap string string)) (user_query : string)
  : message :=
  Msg "user" (context_prompt (context_text_of (collect_content results [])) user_query).

(** How the reply of [openai.chat.completions.create] becomes the answer:
    the content of the first choice; the text of the [IndexError] when there
    is no choice; the text of the exception when the call raises. *)
Inductive replied : outcome (list string) -> string -> Prop :=
  | replied_choice (c : string) (rest : list string) :
      replied (Returned (c :: rest)) c
  | replied_no_choice :
      replied (Returned []) ("Error generating response: " +:+ "list index out of range")
  | replied_failure (e : exn) :
      replied (Raised e) ("Error generating response: " +:+ exn_str e).

(** ** Fixtures: a 1000-word text, a stub embedding service and a 3-document batch *)

(** A text of 1000 incrementing tokens: [0 1 2 ... 999]. *)
Definition thousand_words : string :=
  Py.join " " (map (fun i : nat => pretty i) (seq 0 1000)).

Definition stub_embed (chunk : string) : outcome (list Z) :=
  Returned [Z.of_nat (String.length chunk)].

Definition stub_uuid4 (n : nat) : string := "id-" +:+ pretty n.

Definition stub_upload_fault (documents : list (record (list Z))) : option exn := None.

Definition corrupt : exn := Exn ExtractionError "corrupt".

Definition batch3 : list blob :=
  [ Blob "a.pdf" (Returned ["alpha beta"; "gamma"]);
    Blob "b.pdf" (Raised corrupt);
    Blob "c.pdf" (Returned ["delta"]) ].

Definition ingest_start : ingest_state (list Z) := IngestState [] 0 [].

(** ** Fixtures: stub Index Stores and Generation Providers *)

Definition no_results (query : string) (top_k : Z)
  : outcome (list (gmap string string)) := Returned [].

Definition store_down (query : string) (top_k : Z)
  : outcome (list (gmap string string)) :=
  Raised (Exn StoreError "index unavailable").

Definition two_results (query : string) (top_k : Z)
  : outcome (list (gmap string string)) :=
  Returned [ {[ "content" := "Fees are listed in section 4." ]};
             {[ "title" := "no content here" ]};
             {[ "content" := "Accounts close after 90 days." ]} ].

Definition echo_provider (model : string) (messages : list message) (temperature : Q)
    (max_tokens : Z) : outcome (list string) :=
  Returned ["It depends."].

Definition silent_provider (model : string) (messages : list message) (temperature : Q)
    (max_tokens : Z) : outcome (list string) :=
  Returned [EmptyString].

Definition failing_provider (model : string) (messages : list message) (temperature : Q)
    (max_tokens : Z) : outcome (list string) :=
  Raised (Exn ProviderError "quota exceeded").

(** A session whose history, the list at location 1, holds one earlier turn. *)
Definition earlier_turn : list message :=
  [Msg "user" "hello"; Msg "assistant" "hi there"].

Definition session : chat_state := ChatState {[ 1%positive := earlier_turn ]} [].

(** ** [rag_chatbot_app.py]: the Streamlit script *)

(** What the script puts on the page, call by call. *)
Inductive element :=
  | PageConfig (page_title page_icon : string)
  | Title (body : string)
  | TextInput (label key : string)
  | Markdown (body : string).

(** The state of one run of the script: the heap, the [chat_history] entry
    of [st.session_state] (absent before the first run) and the page. *)
Record ui_state := UiState {
  chat : chat_state;
  session_chat_history : option loc;
  page : list element
}.

Definition in_chat {A} (m : M chat_state A) : M ui_state A :=
  fun u =>
    let (r, c) := m (chat u) in
    (r, UiState c (session_chat_history u) (page u)).

Definition emit (e : element) : M ui_state unit :=
  modify (fun u => UiState (chat u) (session_chat_history u) (page u ++ [e])).

Definition set_session_chat_history (l : loc) : M ui_state unit :=
  modify (fun u => UiState (chat u) (Some l) (page u)).

(** The list display [[]]: a new, empty list object. *)
Definition new_list : M chat_state loc :=
  fun s =>
    let l := fresh (dom (heap s)) in
    let h' := <[l := []]> (heap s) in
    (Returned l, ChatState h' (seen s ++ [h'])).

(** The bank emoji of the page icon and the title, as its UTF-8 bytes. *)
Definition bank : string := "🏦".

(** The line shown for one message of the history. *)
Definition render_message (msg : message) : string :=
  let role_ := if String.eqb (role msg) "user" then "You" else "Bot" in
  "**" +:+ role_ +:+ ":** " +:+ content msg.

(** [for msg in st.session_state.chat_history: st.markdown(...)] *)
Fixpoint display (history : list message) : M ui_state unit :=
  match history with
  | [] => mret tt
  | msg :: rest => emit (Markdown (render_message msg));; display rest
  end.

Section Script.

Variable search : string -> Z -> outcome (list (gmap string string)).
Variable create : string -> list message -> Q -> Z -> outcome (list string).
Variable AZURE_OPENAI_CHAT_DEPLOYMENT : string.

(** One run of the script, [user_input] being what [st.text_input] returns. *)
Definition script (user_input : string) : M ui_state unit :=
  emit (PageConfig "Citi" bank);;
  emit (Title ("Client Manual Chatbot " +:+ bank));;
  present ← gets session_chat_history;
  chat_history ← match present with
                 | Some l => mret l
                 | None => l ← in_chat new_list; set_session_chat_history l;; mret l
                 end;
  emit (TextInput "You:" "input");;
  chat_history ← (if Py.is_empty user_input then mret chat_history
                  else
                    r ← in_chat (generate_answer search create AZURE_OPENAI_CHAT_DEPLOYMENT
                                   user_input chat_history);
                    set_session_chat_history r.2;;
                    mret r.2);
  history ← in_chat (gets (fun s => deref (heap s) chat_history));
  display history.

End Script.

(** ** Notions and fixtures for the further properties *)

(** The chunks the ingestion loop makes of one blob: none for a blob that is
    not a PDF, cannot be read or cannot be chunked. *)
Definition blob_chunks (fuel : nat) (b : blob) : list string :=
  if Py.endswith (blob_name b) ".pdf" then
    match read_pdf_from_blob b with
    | Returned text =>
        match chunk_text fuel text default_chunk_size default_overlap with
        | Returned chunks => chunks
        | _ => []
        end
    | _ => []
    end
  else [].

(** The header every run of the script starts the page with. *)
Definition page_header : list element :=
  [PageConfig "Citi" bank; Title ("Client Manual Chatbot " +:+ bank)].

(** An embedding service that is out of quota for the chunk starting at
    word 450. *)
Definition flaky_embed (chunk : string) : outcome (list Z) :=
  if String.prefix "450 " chunk then Raised (Exn ProviderError "rate limit")
  else Returned [Z.of_nat (String.length chunk)].

Definition big_blob : blob := Blob "big.pdf" (Returned [thousand_words]).

Definition blank_blob : blob := Blob "blank.pdf" (Returned [EmptyString; "   "]).

Definition mixed_container : list blob :=
  [ Blob "a.pdf" (Returned ["alpha beta"; "gamma"]);
    Blob "notes.txt" (Returned ["not a pdf"]);
    Blob "c.pdf" (Returned ["delta"]) ].

Definition useless_results (query : string) (top_k : Z)
  : outcome (list (gmap string string)) :=
  Returned [ {[ "title" := "no content here" ]}; {[ "content" := EmptyString ]} ].

(** A running session of the script and one that has not run yet. *)
Definition ui_session : ui_state := UiState session (Some 1%positive) [].

Definition ui_first_run : ui_state := UiState (ChatState ∅ []) None [].

(** * Properties *)

(** ** The primitives and the chunker on small inputs *)

Example split_ex :
  Py.split "  the quick
 brown	fox " = ["the"; "quick"; "brown"; "fox"].
Proof. reflexivity. Qed.

Example slice_ex1 : Py.slice [1;2;3;4;5] 1 3 = [2;3].
Proof. reflexivity. Qed.
Example slice_ex2 : Py.slice [1;2;3;4;5] (-2) 10 = [4;5].
Proof. reflexivity. Qed.
Example slice_ex3 : Py.slice [1;2;3;4;5] (-9) (-4) = [1].
Proof. reflexivity. Qed.
Example slice_ex4 : Py.slice [1;2;3;4;5] 4 2 = [].
Proof. reflexivity. Qed.

Example chunk_ex :
  chunk_text 10 "a b c d e f g" 3 1 = Returned ["a b c"; "c d e"; "e f g"; "g"].
Proof. reflexivity. Qed.

Example endswith_ex : Py.endswith "manual.pdf" ".pdf" = true.
Proof. reflexivity. Qed.

Example chunk_empty : chunk_text 1 EmptyString 500 50 = Returned [].
Proof. reflexivity. Qed.

Example chunk_defaults_short :
  chunk_text 2 "one two three" default_chunk_size default_overlap
  = Returned ["one two three"].
Proof. reflexivity. Qed.

Example chunk_out_of_fuel : chunk_text 3 "a b c d e f g" 3 1 = OutOfFuel.
Proof. reflexivity. Qed.


(** ** Strings *)

Lemma append_cons (c : ascii) (a b : string) :
  String c a +:+ b = String c (a +:+ b).
Proof. reflexivity. Qed.

Lemma append_empty_l (b : string) : EmptyString +:+ b = b.
Proof. reflexivity. Qed.

Lemma append_empty_r (s : string) : s +:+ EmptyString = s.
Proof.
  induction s as [|c s IH]; [reflexivity|].
  now rewrite append_cons, IH.
Qed.

Lemma append_assoc (a b c : string) : (a +:+ b) +:+ c = a +:+ (b +:+ c).
Proof.
  induction a as [|x a IH]; [reflexivity|].
  now rewrite !append_cons, IH.
Qed.

Lemma no_space_app (a b : string) :
  no_space (a +:+ b) = no_space a && no_space b.
Proof.
  induction a as [|x a IH]; [reflexivity|].
  rewrite append_cons. simpl. rewrite IH. now rewrite andb_assoc.
Qed.

(** Reading a whitespace-free run extends the current word. *)
Lemma split_from_run (w cur rest : string) :
  no_space w = true ->
  Py.split_from cur (w +:+ rest) = Py.split_from (cur +:+ w) rest.
Proof.
  revert cur. induction w as [|c w IH]; intros cur Hw.
  - now rewrite append_empty_r, append_empty_l.
  - simpl in Hw. apply andb_true_iff in Hw as [Hc Hw].
    apply negb_true_iff in Hc. rewrite append_cons. simpl. rewrite Hc.
    rewrite IH by assumption. now rewrite append_assoc.
Qed.

(** Every string [split] produces is a word. *)
Lemma split_from_words (s cur : string) :
  no_space cur = true -> Forall (fun w => is_word w = true) (Py.split_from cur s).
Proof.
  revert cur. induction s as [|c s IH]; intros cur Hcur; simpl.
  - destruct (Py.is_empty cur) eqn:E; constructor; [|constructor].
    unfold is_word. now rewrite E, Hcur.
  - destruct (Py.isspace c) eqn:Hc.
    + destruct (Py.is_empty cur) eqn:E.
      * now apply IH.
      * constructor; [unfold is_word; now rewrite E, Hcur | now apply IH].
    + apply IH. rewrite no_space_app, Hcur. simpl. now rewrite Hc.
Qed.

Lemma split_words (s : string) : Forall (fun w => is_word w = true) (Py.split s).
Proof. now apply split_from_words. Qed.

(** Splitting what [" ".join] glued gives the words back. *)
Lemma split_join (ws : list string) :
  Forall (fun w => is_word w = true) ws -> Py.split (Py.join " " ws) = ws.
Proof.
  unfold Py.split. induction ws as [|x ws IH]; intros Hws; [reflexivity|].
  apply Forall_cons in Hws as [Hx Hws].
  apply andb_true_iff in Hx as [Hne Hns]. apply negb_true_iff in Hne.
  destruct ws as [|y ws].
  - simpl. rewrite <- (append_empty_r x) at 1.
    rewrite split_from_run, append_empty_l by assumption. simpl. now rewrite Hne.
  - change (Py.join " " (x :: y :: ws))
      with (x +:+ String " "%char (Py.join " " (y :: ws))).
    rewrite split_from_run, append_empty_l by assumption. simpl Py.split_from.
    rewrite Hne. f_equal. now apply IH.
Qed.

(** ** Slices *)

(** With bounds that are not negative, a slice is a [take] of a [drop]. *)
Lemma slice_nonneg {A} (l : list A) (s c : Z) :
  0 <= s -> 0 <= c ->
  Py.slice l s (s + c) = take (Z.to_nat c) (drop (Z.to_nat s) l).
Proof.
  intros Hs Hc. unfold Py.slice, Py.adjust_index.
  destruct (Z.ltb_spec s 0) as [|_]; [lia|].
  destruct (Z.ltb_spec (s + c) 0) as [|_]; [lia|].
  destruct (Z_le_gt_dec (Z.of_nat (length l)) s) as [Hge|Hlt].
  - rewrite !Z.min_r by lia. rewrite Z.sub_diag. simpl.
    rewrite (drop_ge l (Z.to_nat s)) by lia. now rewrite take_nil.
  - rewrite (Z.min_l s) by lia.
    destruct (Z_le_gt_dec (s + c) (Z.of_nat (length l))) as [Hin|Hout].
    + rewrite Z.min_l by lia. now replace (s + c - s) with c by lia.
    + rewrite Z.min_r by lia.
      rewrite !take_ge; [reflexivity | rewrite length_drop; lia
                        | rewrite length_drop; lia].
Qed.

Lemma slice_window (words : list string) (chunk_size step : Z) (i : nat) :
  0 <= step -> 0 <= chunk_size ->
  Py.slice words (Z.of_nat i * step) (Z.of_nat i * step + chunk_size)
  = window words chunk_size step i.
Proof.
  intros Hstep Hc. rewrite slice_nonneg by lia. unfold window.
  now rewrite Z2Nat.inj_mul, Nat2Z.id by lia.
Qed.

(** ** The chunking loop with a positive step *)

Lemma n_chunks_reached (n : nat) (step : Z) :
  0 < step -> Z.of_nat n <= Z.of_nat (n_chunks n step) * step.
Proof.
  intros Hstep. unfold n_chunks.
  rewrite Z2Nat.id by (apply Z.div_pos; lia).
  pose proof (Z.mod_pos_bound (Z.of_nat n + step - 1) step Hstep).
  pose proof (Z.div_mod (Z.of_nat n + step - 1) step). lia.
Qed.

Lemma n_chunks_before (n : nat) (step : Z) (j : nat) :
  0 < step -> (j < n_chunks n step)%nat -> Z.of_nat j * step < Z.of_nat n.
Proof.
  intros Hstep Hj. unfold n_chunks in Hj.
  assert (Hq : 0 <= (Z.of_nat n + step - 1) / step) by (apply Z.div_pos; lia).
  assert (Hj' : Z.of_nat j + 1 <= (Z.of_nat n + step - 1) / step) by lia.
  pose proof (Z.mod_pos_bound (Z.of_nat n + step - 1) step Hstep).
  pose proof (Z.div_mod (Z.of_nat n + step - 1) step). nia.
Qed.

Lemma n_chunks_le (n : nat) (step : Z) : 0 < step -> (n_chunks n step <= n)%nat.
Proof.
  intros Hstep. unfold n_chunks.
  assert ((Z.of_nat n + step - 1) / step <= Z.of_nat n); [|lia].
  pose proof (Z.mod_pos_bound (Z.of_nat n + step - 1) step Hstep).
  pose proof (Z.div_mod (Z.of_nat n + step - 1) step).
  destruct (Z_le_gt_dec ((Z.of_nat n + step - 1) / step) (Z.of_nat n)); [assumption|].
  assert (step * (Z.of_nat n + 1) <= step * ((Z.of_nat n + step - 1) / step))
    by (apply Z.mul_le_mono_nonneg_l; lia).
  nia.
Qed.

(** From the [j]-th start on, the loop emits the remaining windows, one per
    iteration, the start index growing by [chunk_size - overlap] each time. *)
Lemma chunk_loop_from (words : list string) (chunk_size overlap : Z) :
  0 <= overlap < chunk_size ->
  forall (k fuel j : nat) (chunks : list string),
    n_chunks (length words) (chunk_size - overlap) = (j + k)%nat ->
    (k < fuel)%nat ->
    chunk_loop fuel words chunk_size overlap
      (Z.of_nat j * (chunk_size - overlap)) chunks
    = Returned
        (chunks ++ map (fun i => Py.join " " (window words chunk_size (chunk_size - overlap) i))
                       (seq j k)).
Proof.
  intros Hv. induction k as [|k IH]; intros fuel j chunks Hn Hfuel;
    (destruct fuel as [|fuel]; [lia|]); simpl chunk_loop.
  - pose proof (n_chunks_reached (length words) (chunk_size - overlap)).
    replace (j + 0)%nat with j in Hn by lia. rewrite Hn in *.
    destruct (Z.ltb_spec (Z.of_nat j * (chunk_size - overlap))
                (Z.of_nat (length words))); [lia|].
    simpl. now rewrite app_nil_r.
  - pose proof (n_chunks_before (length words) (chunk_size - overlap) j).
    destruct (Z.ltb_spec (Z.of_nat j * (chunk_size - overlap))
                (Z.of_nat (length words))); [|lia].
    rewrite slice_window by lia.
    replace (Z.of_nat j * (chunk_size - overlap) + (chunk_size - overlap))
      with (Z.of_nat (S j) * (chunk_size - overlap)) by lia.
    rewrite IH by lia. simpl. now rewrite <- app_assoc.
Qed.

(** The closed form of [chunk_text] for valid parameters. *)
Lemma chunk_text_windows (text : string) (chunk_size overlap : Z) (fuel : nat) :
  0 <= overlap < chunk_size ->
  (length (Py.split text) < fuel)%nat ->
  chunk_text fuel text chunk_size overlap
  = Returned
      (map (fun i => Py.join " " (window (Py.split text) chunk_size (chunk_size - overlap) i))
           (seq 0 (n_chunks (length (Py.split text)) (chunk_size - overlap)))).
Proof.
  intros Hv Hfuel. unfold chunk_text.
  pose proof (n_chunks_le (length (Py.split text)) (chunk_size - overlap)).
  now rewrite (chunk_loop_from _ _ _ Hv
                 (n_chunks (length (Py.split text)) (chunk_size - overlap)) fuel 0 [])
    by lia.
Qed.

(** One iteration of the loop, whatever the parameters. *)
Lemma chunk_loop_step (fuel : nat) (words : list string) (chunk_size overlap start : Z)
    (chunks : list string) :
  start < Z.of_nat (length words) ->
  chunk_loop (S fuel) words chunk_size overlap start chunks
  = chunk_loop fuel words chunk_size overlap (start + (chunk_size - overlap))
      (chunks ++ [Py.join " " (Py.slice words start (start + chunk_size))]).
Proof.
  intros Hlt. simpl.
  now destruct (Z.ltb_spec start (Z.of_nat (length words))); [|lia].
Qed.

(** The loop has no [raise]: no fuel and no parameters make it fail. *)
Lemma chunk_loop_never_raises (fuel : nat) (words : list string)
    (chunk_size overlap start : Z) (chunks : list string) (e : exn) :
  chunk_loop fuel words chunk_size overlap start chunks <> Raised e.
Proof.
  revert start chunks. induction fuel as [|fuel IH]; intros start chunks; simpl.
  - discriminate.
  - destruct (start <? Z.of_nat (length words)); [apply IH | discriminate].
Qed.

(** With a step that is not positive the start index never leaves [0] or
    below, so over a non-empty word list the loop condition stays true. *)
Lemma chunk_loop_stuck (fuel : nat) (words : list string)
    (chunk_size overlap start : Z) (chunks : list string) :
  chunk_size <= overlap -> words <> [] -> start <= 0 ->
  chunk_loop fuel words chunk_size overlap start chunks = OutOfFuel.
Proof.
  intros Hstep Hne. revert start chunks.
  induction fuel as [|fuel IH]; intros start chunks Hstart; [reflexivity|].
  assert (0 < Z.of_nat (length words)) by (destruct words; [easy | simpl; lia]).
  rewrite chunk_loop_step by lia. apply IH. lia.
Qed.

(** *** Claims about [chunk_text] *)

(** C10: for every text and every [chunk_size > 0], [0 <= overlap < chunk_size],
    the chunking loop terminates: any fuel above the word count is enough and
    the result does not depend on it; on each iteration the start index grows
    by the positive amount [chunk_size - overlap]. *)
Theorem chunk_text_terminates (text : string) (chunk_size overlap : Z) :
  0 < chunk_size -> 0 <= overlap < chunk_size ->
  (exists chunks, forall fuel, (length (Py.split text) < fuel)%nat ->
      chunk_text fuel text chunk_size overlap = Returned chunks)
  /\ (forall fuel start chunks, start < Z.of_nat (length (Py.split text)) ->
        start < start + (chunk_size - overlap)
        /\ chunk_loop (S fuel) (Py.split text) chunk_size overlap start chunks
           = chunk_loop fuel (Py.split text) chunk_size overlap
               (start + (chunk_size - overlap))
               (chunks ++ [Py.join " " (Py.slice (Py.split text) start (start + chunk_size))])).
Proof.
  intros _ Hv. split.
  - eexists. intros fuel Hfuel. now apply chunk_text_windows.
  - intros fuel start chunks Hlt. split; [lia | now apply chunk_loop_step].
Qed.

Lemma chunk_text_terminates_witness :
  exists chunks, forall fuel, (7 < fuel)%nat ->
    chunk_text fuel "a b c d e f g" 3 1 = Returned chunks.
Proof.
  destruct (chunk_text_terminates "a b c d e f g" 3 1) as [[chunks H] _]; [lia | lia |].
  exists chunks. intros fuel Hfuel. apply H. exact Hfuel.
Defined.

(** C1, as stated, fails: with [chunk_size = overlap = 100] and a text of two
    words the call raises nothing, it never comes back. *)
Lemma chunk_text_invalid_overlap_not_rejected :
  diverges (fun fuel => chunk_text fuel "hello world" 100 100)
  /\ ~ (exists fuel msg,
          chunk_text fuel "hello world" 100 100 = Raised (Exn ConfigurationError msg)).
Proof.
  assert (D : diverges (fun fuel => chunk_text fuel "hello world" 100 100)).
  { intros fuel. unfold chunk_text. apply chunk_loop_stuck; [lia | discriminate | lia]. }
  split; [exact D|]. intros (fuel & msg & H). now rewrite (D fuel) in H.
Qed.

(** C1, amended: for [overlap >= chunk_size] the function has no guard and
    raises no error; on a text without words it returns the empty list, on a
    text with at least one word the loop never terminates. *)
Theorem chunk_text_invalid_overlap (text : string) (chunk_size overlap : Z) :
  overlap >= chunk_size ->
  (forall fuel e, chunk_text fuel text chunk_size overlap <> Raised e)
  /\ (Py.split text = [] ->
      forall fuel, (0 < fuel)%nat -> chunk_text fuel text chunk_size overlap = Returned [])
  /\ (Py.split text <> [] ->
      diverges (fun fuel => chunk_text fuel text chunk_size overlap)).
Proof.
  intros Hinv. split; [|split].
  - intros fuel e. apply chunk_loop_never_raises.
  - intros Hnil fuel Hfuel. unfold chunk_text. rewrite Hnil.
    destruct fuel; [lia | reflexivity].
  - intros Hne fuel. unfold chunk_text. apply chunk_loop_stuck; [lia | exact Hne | lia].
Qed.

Lemma chunk_text_invalid_overlap_witness :
  (forall fuel e, chunk_text fuel "hello world" 100 100 <> Raised e)
  /\ diverges (fun fuel => chunk_text fuel "hello world" 50 100)
  /\ chunk_text 1 "   " 100 100 = Returned [].
Proof.
  split; [|split].
  - apply (chunk_text_invalid_overlap "hello world" 100 100). lia.
  - apply (chunk_text_invalid_overlap "hello world" 50 100); [lia | discriminate].
  - apply (chunk_text_invalid_overlap "   " 100 100); [lia | reflexivity | lia].
Defined.

(** C6: on any text of 1000 words, [chunk_text] with [chunk_size = 500] and
    [overlap = 50] yields exactly three chunks, whose words start at offsets
    0, 450 and 900 of the text, the third holding 100 words; in general, for
    valid parameters, chunk [i] holds the (at most [chunk_size]) words from
    offset [i * (chunk_size - overlap)] on, for every such offset below the
    word count. *)
Theorem chunk_text_offsets :
  (forall text chunk_size overlap fuel,
      0 <= overlap < chunk_size ->
      (length (Py.split text) < fuel)%nat ->
      chunk_text fuel text chunk_size overlap
      = Returned
          (map (fun i : nat =>
                  Py.join " " (take (Z.to_nat chunk_size)
                                 (drop (i * Z.to_nat (chunk_size - overlap)) (Py.split text))))
             (seq 0 (n_chunks (length (Py.split text)) (chunk_size - overlap)))))
  /\ (forall text fuel,
        length (Py.split text) = 1000%nat -> (3 < fuel)%nat ->
        exists c0 c1 c2,
          chunk_text fuel text 500 50 = Returned [c0; c1; c2]
          /\ Py.split c0 = take 500 (Py.split text)
          /\ Py.split c1 = take 500 (drop 450 (Py.split text))
          /\ Py.split c2 = drop 900 (Py.split text)
          /\ head (Py.split c0) = Py.split text !! 0%nat
          /\ head (Py.split c1) = Py.split text !! 450%nat
          /\ head (Py.split c2) = Py.split text !! 900%nat
          /\ length (Py.split c0) = 500%nat
          /\ length (Py.split c1) = 500%nat
          /\ length (Py.split c2) = 100%nat).
Proof.
  split.
  - intros text chunk_size overlap fuel Hv Hfuel. now apply chunk_text_windows.
  - intros text fuel Hlen Hfuel.
    pose proof (split_words text) as Hw.
    set (words := Py.split text) in *.
    assert (Hsub : forall a b, Forall (fun w => is_word w = true) (take a (drop b words))).
    { intros a b. apply Forall_take, Forall_drop, Hw. }
    exists (Py.join " " (window words 500 450 0)),
           (Py.join " " (window words 500 450 1)),
           (Py.join " " (window words 500 450 2)).
    split.
    { unfold chunk_text. fold words.
      apply (chunk_loop_from words 500 50 ltac:(lia) 3 fuel 0 []);
        [now rewrite Hlen | exact Hfuel]. }
    unfold window.
    change (0 * Z.to_nat 450)%nat with 0%nat.
    change (1 * Z.to_nat 450)%nat with 450%nat.
    change (2 * Z.to_nat 450)%nat with 900%nat.
    change (Z.to_nat 500) with 500%nat.
    rewrite !split_join by apply Hsub.
    rewrite drop_0.
    assert (Hlast : take 500 (drop 900 words) = drop 900 words).
    { apply take_ge. rewrite length_drop. lia. }
    rewrite Hlast.
    repeat split.
    + rewrite head_lookup. now rewrite lookup_take_lt by lia.
    + rewrite head_lookup, lookup_take_lt by lia. rewrite lookup_drop. f_equal.
    + rewrite head_lookup, lookup_drop. f_equal.
    + rewrite length_take. lia.
    + rewrite length_take, length_drop. lia.
    + rewrite length_drop. lia.
Qed.

Lemma chunk_text_offsets_witness :
  exists c0 c1 c2,
    chunk_text 4 thousand_words 500 50 = Returned [c0; c1; c2]
    /\ head (Py.split c0) = Some "0"
    /\ head (Py.split c1) = Some "450"
    /\ head (Py.split c2) = Some "900"
    /\ length (Py.split c2) = 100%nat.
Proof.
  destruct (proj2 chunk_text_offsets thousand_words 4%nat)
    as (c0 & c1 & c2 & H & _ & _ & _ & H0 & H1 & H2 & _ & _ & H3);
    [vm_compute; reflexivity | lia |].
  exists c0, c1, c2. split; [exact H|].
  split; [rewrite H0; vm_compute; reflexivity|].
  split; [rewrite H1; vm_compute; reflexivity|].
  split; [rewrite H2; vm_compute; reflexivity | exact H3].
Defined.

(** Position [k] of window [j] is position [j * step + k] of the text. *)
Lemma window_lookup (words : list string) (chunk_size step : Z) (j k : nat) (w : string) :
  window words chunk_size step j !! k = Some w ->
  words !! (j * Z.to_nat step + k)%nat = Some w.
Proof.
  unfold window. intros H.
  apply lookup_take_Some in H as [H _]. now rewrite lookup_drop in H.
Qed.

(** C7: for valid parameters, every word of the text (each occurrence, at
    word index [i]) is in some chunk, and the chunks keep the order of the
    text: word [k] of chunk [j] is word [j * (chunk_size - overlap) + k] of
    the text. *)
Theorem chunk_text_covers_in_order (text : string) (chunk_size overlap : Z) (fuel : nat) :
  0 < chunk_size -> 0 <= overlap < chunk_size ->
  (length (Py.split text) < fuel)%nat ->
  exists chunks,
    chunk_text fuel text chunk_size overlap = Returned chunks
    /\ (forall (i : nat) (w : string),
          Py.split text !! i = Some w ->
          exists (j k : nat) (c : string),
            chunks !! j = Some c /\ Py.split c !! k = Some w
            /\ i = (j * Z.to_nat (chunk_size - overlap) + k)%nat)
    /\ (forall (j k : nat) (c w : string),
          chunks !! j = Some c -> Py.split c !! k = Some w ->
          Py.split text !! (j * Z.to_nat (chunk_size - overlap) + k)%nat = Some w).
Proof.
  intros _ Hv Hfuel. eexists. split; [now apply chunk_text_windows|].
  pose proof (split_words text) as Hw.
  set (words := Py.split text) in *.
  set (step := chunk_size - overlap).
  assert (Hstep : 0 < step) by (unfold step; lia).
  assert (Hchunk : forall j c,
             map (fun i => Py.join " " (window words chunk_size step i))
               (seq 0 (n_chunks (length words) step)) !! j = Some c ->
             (j < n_chunks (length words) step)%nat
             /\ Py.split c = window words chunk_size step j).
  { intros j c Hj. rewrite list_lookup_fmap in Hj.
    destruct (seq 0 (n_chunks (length words) step) !! j) as [i|] eqn:Hi;
      [|discriminate].
    apply lookup_seq in Hi as [-> Hlt]. simpl in Hj. injection Hj as <-.
    split; [exact Hlt|]. apply split_join.
    unfold window. apply Forall_take, Forall_drop, Hw. }
  split.
  - intros i w Hi.
    pose proof (lookup_lt_Some _ _ _ Hi) as Hlt.
    set (s := Z.to_nat step). assert (Hs : (0 < s)%nat) by (unfold s; lia).
    pose proof (Nat.div_mod_eq i s) as Hdm.
    pose proof (Nat.mod_upper_bound i s ltac:(lia)) as Hmod.
    assert (Hj : (i / s < n_chunks (length words) step)%nat).
    { pose proof (n_chunks_reached (length words) step Hstep).
      destruct (le_lt_dec (n_chunks (length words) step) (i / s)); [|assumption].
      assert (Z.of_nat (n_chunks (length words) step) * step
              <= Z.of_nat (i / s) * step) by (apply Z.mul_le_mono_nonneg_r; lia).
      assert (Z.of_nat (i / s) * step <= Z.of_nat i).
      { replace step with (Z.of_nat s) by (unfold s; lia). nia. }
      lia. }
    exists (i / s)%nat, (i mod s)%nat,
      (Py.join " " (window words chunk_size step (i / s))).
    split; [|split].
    + rewrite list_lookup_fmap, lookup_seq_lt by exact Hj. reflexivity.
    + rewrite split_join by (unfold window; apply Forall_take, Forall_drop, Hw).
      unfold window. rewrite lookup_take_lt by (fold s; lia).
      rewrite lookup_drop. fold s. rewrite <- Hi. f_equal. lia.
    + fold s. lia.
  - intros j k c w Hj Hk. apply Hchunk in Hj as [_ Hj].
    rewrite Hj in Hk. now apply window_lookup in Hk.
Qed.

Lemma chunk_text_covers_in_order_witness :
  exists chunks,
    chunk_text 8 "a b c d e f g" 3 1 = Returned chunks
    /\ (forall (i : nat) (w : string),
          Py.split "a b c d e f g" !! i = Some w ->
          exists (j k : nat) (c : string),
            chunks !! j = Some c /\ Py.split c !! k = Some w
            /\ i = (j * 2 + k)%nat)
    /\ (forall (j k : nat) (c w : string),
          chunks !! j = Some c -> Py.split c !! k = Some w ->
          Py.split "a b c d e f g" !! (j * 2 + k)%nat = Some w).
Proof.
  apply (chunk_text_covers_in_order "a b c d e f g" 3 1 8); [lia | lia | vm_compute; lia].
Defined.

(** ** The ingestion loop *)

Section IngestionFacts.

Context {vector : Type}.
Variable embed : string -> outcome vector.
Variable uuid4 : nat -> string.
Variable upload_fault : list (record vector) -> option exn.

Local Abbreviation run_ingest := (ingest vector embed uuid4 upload_fault).
Local Abbreviation run_blob := (process_blob vector embed uuid4 upload_fault).

(** The loop over a concatenation: the second part runs only when the first
    came back normally. *)
Lemma ingest_app (fuel : nat) (before after : list blob) (s s1 : ingest_state vector) :
  run_ingest fuel before s = (Returned tt, s1) ->
  run_ingest fuel (before ++ after) s = run_ingest fuel after s1.
Proof.
  revert s. induction before as [|b before IH]; intros s H; simpl in *.
  - now injection H as <-.
  - unfold mbind, M_bind in *.
    destruct (run_blob fuel b s) as [[[]| |] s'] eqn:Hb; try discriminate.
    now apply IH.
Qed.

(** A blob whose reading raises: the exception leaves [process_blob] after
    the first [print], with the Index Store untouched. *)
Lemma process_blob_extraction_error (fuel : nat) (bad : blob) (e : exn)
    (s : ingest_state vector) :
  Py.endswith (blob_name bad) ".pdf" = true ->
  blob_pages bad = Raised e ->
  run_blob fuel bad s
  = (Raised e,
     IngestState (index_store s) (uuids_drawn s)
       (stdout s ++ ["Processing " +:+ blob_name bad +:+ " from storage..."])).
Proof.
  intros Hpdf Hbad. unfold process_blob. rewrite Hpdf.
  unfold mbind, M_bind, print, modify, lift, read_pdf_from_blob.
  now rewrite Hbad.
Qed.

(** C2, amended: when reading a PDF blob raises, the exception propagates out
    of the loop.  The blobs before it have been processed; the failing blob
    and every blob after it get no record uploaded, and the run ends with the
    exception instead of a report: the Index Store is exactly as the blobs
    before the failing one left it. *)
Theorem ingest_extraction_error_aborts (fuel : nat) (before after : list blob)
    (bad : blob) (e : exn) (s s1 : ingest_state vector) :
  run_ingest fuel before s = (Returned tt, s1) ->
  Py.endswith (blob_name bad) ".pdf" = true ->
  blob_pages bad = Raised e ->
  run_ingest fuel (before ++ bad :: after) s
  = (Raised e,
     IngestState (index_store s1) (uuids_drawn s1)
       (stdout s1 ++ ["Processing " +:+ blob_name bad +:+ " from storage..."])).
Proof.
  intros Hbefore Hpdf Hbad.
  rewrite (ingest_app _ _ _ _ _ Hbefore). simpl.
  unfold mbind, M_bind at 1.
  now rewrite (process_blob_extraction_error fuel bad e s1 Hpdf Hbad).
Qed.

End IngestionFacts.

(** C2, as stated, fails: in a batch of three PDFs whose second cannot be
    read, the run ends with the [ExtractionError]; the Index Store holds the
    one record of the first document and nothing of the third. *)
Lemma ingest_batch3_aborts_at_second :
  ingest (list Z) stub_embed stub_uuid4 stub_upload_fault 10 batch3 ingest_start
  = (Raised corrupt,
     IngestState
       [Record_ "id-0" "alpha beta gamma" [16]]
       1
       ["Processing a.pdf from storage...";
        "Uploaded 1 chunks from a.pdf";
        "Processing b.pdf from storage..."]).
Proof. vm_compute. reflexivity. Qed.

Lemma ingest_extraction_error_aborts_witness :
  ingest (list Z) stub_embed stub_uuid4 stub_upload_fault 10 batch3 ingest_start
  = (Raised corrupt,
     IngestState
       [Record_ "id-0" "alpha beta gamma" [16]]
       1
       ["Processing a.pdf from storage...";
        "Uploaded 1 chunks from a.pdf";
        "Processing b.pdf from storage..."]).
Proof.
  apply (ingest_extraction_error_aborts stub_embed stub_uuid4 stub_upload_fault 10
           [Blob "a.pdf" (Returned ["alpha beta"; "gamma"])]
           [Blob "c.pdf" (Returned ["delta"])]
           (Blob "b.pdf" (Raised corrupt)) corrupt ingest_start
           (IngestState [Record_ "id-0" "alpha beta gamma" [16]] 1
              ["Processing a.pdf from storage..."; "Uploaded 1 chunks from a.pdf"]));
    vm_compute; reflexivity.
Defined.

(** ** The answering engine *)

Lemma deref_insert_eq (h : gmap loc (list message)) (l : loc) (v : list message) :
  deref (<[l := v]> h) l = v.
Proof. unfold deref. now rewrite lookup_insert_eq. Qed.

Lemma deref_insert_ne (h : gmap loc (list message)) (l l' : loc) (v : list message) :
  l <> l' -> deref (<[l := v]> h) l' = deref h l'.
Proof. intros Hne. unfold deref. now rewrite lookup_insert_ne. Qed.

Lemma deref_lookup (h : gmap loc (list message)) (l : loc) (v : list message) :
  h !! l = Some v -> deref h l = v.
Proof. intros H. unfold deref. now rewrite H. Qed.

(** The deep copy is a new object: its location is none of the heap's. *)
Lemma fresh_not_allocated (h : gmap loc (list message)) (l : loc) (v : list message) :
  h !! l = Some v -> fresh (dom h) <> l.
Proof.
  intros H Heq. apply (is_fresh (dom h)). rewrite Heq.
  apply elem_of_dom. now exists v.
Qed.

Lemma length_append (a b : string) :
  String.length (a +:+ b) = (String.length a + String.length b)%nat.
Proof.
  induction a as [|c a IH]; [reflexivity|].
  rewrite append_cons. simpl. now rewrite IH.
Qed.

(** The prompt built around a query is never the bare query. *)
Lemma context_prompt_not_query (context_text q : string) :
  context_prompt context_text q <> q.
Proof.
  intros E. apply (f_equal String.length) in E.
  unfold context_prompt in E. rewrite !length_append in E. simpl in E. lia.
Qed.

Lemma error_answer_not_empty (reason : string) :
  "Error generating response: " +:+ reason <> EmptyString.
Proof.
  intros E. apply (f_equal String.length) in E.
  rewrite length_append in E. simpl in E. lia.
Qed.

Section ChatbotFacts.

Variable search : string -> Z -> outcome (list (gmap string string)).
Variable create : string -> list message -> Q -> Z -> outcome (list string).
Variable deployment : string.

Local Abbreviation answer_query := (generate_answer search create deployment).

Lemma generate_answer_store_error (q : string) (h : loc) (s : chat_state) (e : exn) :
  search q 10 = Raised e -> answer_query q h s = (Raised e, s).
Proof.
  intros Hs. unfold generate_answer, get_top_chunks, mbind, M_bind, lift.
  now rewrite Hs.
Qed.

Lemma generate_answer_run (q : string) (h : loc) (H : gmap loc (list message))
    (L : list (gmap loc (list message))) (hist : list message)
    (results : list (gmap string string)) (answer : string) :
  H !! h = Some hist ->
  search q 10 = Returned results ->
  replied (create deployment (hist ++ [system_message; context_message results q])
             (1 # 5)%Q 1000) answer ->
  exists s' k,
    answer_query q h (ChatState H L) = (Returned (answer, h), s')
    /\ observations h s'
       = map (fun hp => deref hp h) L ++ replicate k hist
         ++ [hist ++ [Msg "user" q];
             hist ++ [Msg "user" q; Msg "assistant" answer]]
    /\ (4 <= k <= 5)%nat
    /\ heap s' !! h = Some (hist ++ [Msg "user" q; Msg "assistant" answer])
    /\ heap s' !! fresh (dom H) = Some (hist ++ [system_message; context_message results q])
    /\ (forall l, l <> h -> is_Some (H !! l) -> heap s' !! l = H !! l).
Proof.
  intros Hh Hs Hr.
  pose proof (fresh_not_allocated H h hist Hh) as Hw.
  unfold generate_answer, get_top_chunks, try_except, list_append, deepcopy, observe,
    gets, modify, mbind, M_bind, mret, M_ret, lift.
  rewrite Hs. simpl.
  rewrite !deref_insert_eq.
  rewrite (deref_lookup H h hist Hh).
  replace ((hist ++ [Msg "system" system_prompt])
           ++ [Msg "user" (context_prompt (context_text_of (collect_content results [])) q)])
    with (hist ++ [system_message; context_message results q])
    by (now rewrite <- app_assoc).
  inversion Hr as [c rest Hc | Hc | e Hc]; subst; simpl;
    rewrite !deref_insert_eq, !(deref_insert_ne _ _ h) by exact Hw;
    rewrite (deref_lookup H h hist Hh);
    eexists; [exists 5%nat | exists 5%nat | exists 4%nat];
    (split; [reflexivity|]);
    (split; [| split; [lia | split; [| split]]]).
  all: try (simpl; rewrite lookup_insert_eq, <- app_assoc; reflexivity).
  all: try (simpl; rewrite !(lookup_insert_ne _ h) by congruence;
            now rewrite lookup_insert_eq).
  all: try (intros l Hl Hsome; simpl;
            assert (fresh (dom H) <> l)
              by (destruct Hsome as [v Hv]; exact (fresh_not_allocated H l v Hv));
            now rewrite !lookup_insert_ne by congruence).
  all: unfold observations; simpl; rewrite !map_app; simpl;
    rewrite !deref_insert_eq, !(deref_insert_ne _ _ h) by exact Hw;
    rewrite (deref_lookup H h hist Hh), <- !app_assoc; reflexivity.
Qed.

Lemma generate_answer_store_hangs (q : string) (h : loc) (s : chat_state) :
  search q 10 = OutOfFuel -> answer_query q h s = (OutOfFuel, s).
Proof.
  intros Hs. unfold generate_answer, get_top_chunks, mbind, M_bind, lift.
  now rewrite Hs.
Qed.

(** A provider that never replies: the call does not come back, and the
    caller's list is as it was. *)
Lemma generate_answer_provider_hangs (q : string) (h : loc) (H : gmap loc (list message))
    (L : list (gmap loc (list message))) (hist : list message)
    (results : list (gmap string string)) :
  H !! h = Some hist ->
  search q 10 = Returned results ->
  create deployment (hist ++ [system_message; context_message results q]) (1 # 5)%Q 1000
  = OutOfFuel ->
  exists s',
    answer_query q h (ChatState H L) = (OutOfFuel, s')
    /\ observations h s' = map (fun hp => deref hp h) L ++ replicate 4 hist
    /\ heap s' !! h = Some hist.
Proof.
  intros Hh Hs Hc.
  pose proof (fresh_not_allocated H h hist Hh) as Hw.
  unfold generate_answer, get_top_chunks, try_except, list_append, deepcopy, observe,
    gets, modify, mbind, M_bind, mret, M_ret, lift.
  rewrite Hs. simpl.
  rewrite !deref_insert_eq, (deref_lookup H h hist Hh).
  replace ((hist ++ [Msg "system" system_prompt])
           ++ [Msg "user" (context_prompt (context_text_of (collect_content results [])) q)])
    with (hist ++ [system_message; context_message results q])
    by (now rewrite <- app_assoc).
  rewrite Hc. eexists. split; [reflexivity|]. split.
  - unfold observations. simpl. rewrite !map_app. simpl.
    rewrite !(deref_insert_ne _ _ h) by exact Hw.
    rewrite (deref_lookup H h hist Hh), <- !app_assoc. reflexivity.
  - simpl. now rewrite !lookup_insert_ne by exact Hw.
Qed.

(** Every reply but silence becomes an answer. *)
Lemma replied_total (r : outcome (list string)) :
  r <> OutOfFuel -> exists answer, replied r answer.
Proof.
  destruct r as [[|c rest]|e|]; intros Hr; [| | |congruence]; eexists; constructor.
Qed.

(** The two messages of a turn, and the states of the history between
    them: nothing of the prompt is there. *)
Lemma added_turn_is_clean (q answer : string) (hist : list message) (k : nat)
    (seen_hists : list (list message)) :
  seen_hists
  = replicate k hist
    ++ [hist ++ [Msg "user" q]; hist ++ [Msg "user" q; Msg "assistant" answer]] ->
  Forall (fun m => role m = "user" \/ role m = "assistant")
    [Msg "user" q; Msg "assistant" answer]
  /\ (system_message ∉ [Msg "user" q; Msg "assistant" answer])
  /\ (forall results, context_message results q ∉ [Msg "user" q; Msg "assistant" answer])
  /\ Forall (fun seen_hist =>
               exists pre, seen_hist = hist ++ pre
                           /\ (pre `prefix_of` [Msg "user" q; Msg "assistant" answer]))
       seen_hists.
Proof.
  intros ->. split; [|split; [|split]].
  - constructor; [now left|]. constructor; [now right | constructor].
  - rewrite !elem_of_cons, elem_of_nil. intros [E|[E|[]]]; discriminate E.
  - intros rs. rewrite !elem_of_cons, elem_of_nil. intros [E|[E|[]]].
    + injection E as E. now apply context_prompt_not_query in E.
    + discriminate E.
  - apply Forall_app. split.
    + apply Forall_replicate. exists []. split; [now rewrite app_nil_r | apply prefix_nil].
    + constructor; [|constructor; [|constructor]].
      * exists [Msg "user" q]. split; [reflexivity | now exists [Msg "assistant" answer]].
      * exists [Msg "user" q; Msg "assistant" answer]. split; reflexivity.
Qed.

(** *** Claims about [generate_answer] *)

(** C3, amended: while the prompt is built and the provider is called the
    caller's list is unchanged, the system and context messages going to a
    deep copy at another location; after the reply the function appends the
    user message and then the assistant message to the caller's own list, in
    place, and returns that same list. *)
Theorem history_appended_in_place_after_reply (q : string) (h : loc)
    (H : gmap loc (list message)) (hist : list message)
    (results : list (gmap string string)) (answer : string) :
  H !! h = Some hist ->
  search q 10 = Returned results ->
  replied (create deployment (hist ++ [system_message; context_message results q])
             (1 # 5)%Q 1000) answer ->
  exists s' k,
    answer_query q h (ChatState H []) = (Returned (answer, h), s')
    /\ (4 <= k <= 5)%nat
    /\ observations h s'
       = replicate k hist
         ++ [hist ++ [Msg "user" q];
             hist ++ [Msg "user" q; Msg "assistant" answer]]
    /\ fresh (dom H) <> h
    /\ heap s' !! fresh (dom H)
       = Some (hist ++ [system_message; context_message results q]).
Proof.
  intros Hh Hs Hr.
  destruct (generate_answer_run q h H [] hist results answer Hh Hs Hr)
    as (s' & k & Hrun & Hobs & Hk & _ & Hcopy & _).
  exists s', k. repeat split; try assumption; try lia.
  now apply (fresh_not_allocated H h hist).
Qed.

(** C4, amended: when the Index Store query raises, the exception leaves
    [generate_answer] as it is: no answer is produced, the provider is not
    called, and the heap (the history with it) is untouched. *)
Theorem store_error_propagates (q : string) (h : loc) (s : chat_state) (e : exn) :
  search q 10 = Raised e ->
  answer_query q h s = (Raised e, s).
Proof. apply generate_answer_store_error. Qed.

(** C5: when the chat completion call raises, or replies with no choice at
    all, nothing is raised to the caller: the answer is the text
    [Error generating response: ] followed by the reason, and the user
    message and this answer are both appended to the history. *)
Theorem provider_failure_becomes_answer (q : string) (h : loc)
    (H : gmap loc (list message)) (L : list (gmap loc (list message)))
    (hist : list message) (results : list (gmap string string)) (reason : string) :
  H !! h = Some hist ->
  search q 10 = Returned results ->
  (exists e,
      create deployment (hist ++ [system_message; context_message results q])
        (1 # 5)%Q 1000 = Raised e
      /\ reason = exn_str e)
  \/ (create deployment (hist ++ [system_message; context_message results q])
        (1 # 5)%Q 1000 = Returned []
      /\ reason = "list index out of range") ->
  exists s',
    answer_query q h (ChatState H L)
    = (Returned ("Error generating response: " +:+ reason, h), s')
    /\ heap s' !! h
       = Some (hist ++ [Msg "user" q;
                        Msg "assistant" ("Error generating response: " +:+ reason)]).
Proof.
  intros Hh Hs Hfail.
  assert (Hr : replied
                 (create deployment (hist ++ [system_message; context_message results q])
                    (1 # 5)%Q 1000)
                 ("Error generating response: " +:+ reason)).
  { destruct Hfail as [(e & -> & ->) | [-> ->]]; constructor. }
  destruct (generate_answer_run q h H L hist results _ Hh Hs Hr)
    as (s' & k & Hrun & _ & _ & Hhist & _).
  exists s'. now split.
Qed.

(** C8, amended: when the Index Store returns no result the prompt carries an
    empty context, and the call returns the answer made of the provider's
    reply together with the caller's history extended by exactly two
    messages, the bare query as [user] and the answer as [assistant].  The
    answer is empty only when the provider's first choice is itself empty. *)
Theorem zero_results_still_answered (q : string) (h : loc)
    (H : gmap loc (list message)) (L : list (gmap loc (list message)))
    (hist : list message) (answer : string) :
  H !! h = Some hist ->
  search q 10 = Returned [] ->
  replied (create deployment
             (hist ++ [system_message; Msg "user" (context_prompt EmptyString q)])
             (1 # 5)%Q 1000) answer ->
  exists s' updated,
    answer_query q h (ChatState H L) = (Returned (answer, h), s')
    /\ heap s' !! h = Some updated
    /\ updated = hist ++ [Msg "user" q; Msg "assistant" answer]
    /\ length updated = (length hist + 2)%nat
    /\ (answer = EmptyString ->
        exists rest,
          create deployment
            (hist ++ [system_message; Msg "user" (context_prompt EmptyString q)])
            (1 # 5)%Q 1000 = Returned (EmptyString :: rest)).
Proof.
  intros Hh Hs Hr.
  destruct (generate_answer_run q h H L hist [] answer Hh Hs Hr)
    as (s' & k & Hrun & _ & _ & Hhist & _).
  exists s', (hist ++ [Msg "user" q; Msg "assistant" answer]).
  repeat split; try assumption.
  - rewrite length_app. reflexivity.
  - intros ->. inversion Hr as [c rest Hc | |]. now exists rest.
Qed.

(** C9: whatever the Index Store and the provider do, what a call adds to the
    caller's history is nothing or a [user] message followed by an
    [assistant] message; the system message and the context-injection message
    are never among them, nor in any state of the history seen during the
    call. *)
Theorem only_user_and_assistant_persisted (q : string) (h : loc)
    (H : gmap loc (list message)) (hist : list message) :
  H !! h = Some hist ->
  exists added,
    heap (answer_query q h (ChatState H [])).2 !! h = Some (hist ++ added)
    /\ Forall (fun m => role m = "user" \/ role m = "assistant") added
    /\ (system_message ∉ added)
    /\ (forall results, context_message results q ∉ added)
    /\ Forall (fun seen_hist => exists pre, seen_hist = hist ++ pre /\ (pre `prefix_of` added))
         (observations h (answer_query q h (ChatState H [])).2).
Proof.
  intros Hh.
  destruct (search q 10) as [results|e|] eqn:Hs.
  - destruct (create deployment (hist ++ [system_message; context_message results q])
                (1 # 5)%Q 1000) as [choices|e|] eqn:Hc.
    1,2: destruct (replied_total
                     (create deployment (hist ++ [system_message; context_message results q])
                        (1 # 5)%Q 1000)) as [answer Hr]; [rewrite Hc; discriminate|];
      destruct (generate_answer_run q h H [] hist results answer Hh Hs Hr)
        as (s' & k & Hrun & Hobs & _ & Hhist & _);
      rewrite Hrun; simpl; exists [Msg "user" q; Msg "assistant" answer];
      (split; [exact Hhist|]);
      apply (added_turn_is_clean q answer hist k); exact Hobs.
    destruct (generate_answer_provider_hangs q h H [] hist results Hh Hs Hc)
      as (s' & Hrun & Hobs & Hhist).
    rewrite Hrun. simpl. exists []. rewrite app_nil_r.
    split; [exact Hhist|]. split; [constructor|].
    split; [apply not_elem_of_nil|]. split; [intros rs; apply not_elem_of_nil|].
    rewrite Hobs. apply Forall_replicate. exists []. now rewrite app_nil_r.
  - rewrite (generate_answer_store_error q h _ e Hs). simpl.
    exists []. rewrite app_nil_r. split; [exact Hh|]. split; [constructor|].
    split; [apply not_elem_of_nil|]. split; [intros rs; apply not_elem_of_nil|].
    constructor.
  - rewrite (generate_answer_store_hangs q h _ Hs). simpl.
    exists []. rewrite app_nil_r. split; [exact Hh|]. split; [constructor|].
    split; [apply not_elem_of_nil|]. split; [intros rs; apply not_elem_of_nil|].
    constructor.
Qed.

End ChatbotFacts.

(** *** The claims on a session with one earlier turn *)

(** C3, as stated, fails: an observer of the caller's list sees it grow by
    the user message, then by the assistant message, before the call
    returns. *)
Lemma history_seen_changed_before_return :
  observations 1%positive
    (generate_answer no_results echo_provider "chat" "What are the fees?"
       1%positive session).2
  = [ earlier_turn; earlier_turn; earlier_turn; earlier_turn; earlier_turn;
      earlier_turn ++ [Msg "user" "What are the fees?"];
      earlier_turn ++ [Msg "user" "What are the fees?"; Msg "assistant" "It depends."] ]
  /\ ~ Forall (fun seen_hist => seen_hist = earlier_turn)
         (observations 1%positive
            (generate_answer no_results echo_provider "chat" "What are the fees?"
               1%positive session).2).
Proof.
  assert (E : observations 1%positive
                (generate_answer no_results echo_provider "chat" "What are the fees?"
                   1%positive session).2
              = [ earlier_turn; earlier_turn; earlier_turn; earlier_turn; earlier_turn;
                  earlier_turn ++ [Msg "user" "What are the fees?"];
                  earlier_turn ++ [Msg "user" "What are the fees?";
                                   Msg "assistant" "It depends."] ])
    by (vm_compute; reflexivity).
  split; [exact E|]. rewrite E. intros HF.
  pose proof (Forall_lookup_1 _ _ 5%nat
                (earlier_turn ++ [Msg "user" "What are the fees?"]) HF eq_refl) as Hbad.
  discriminate Hbad.
Qed.

Lemma history_appended_in_place_after_reply_witness :
  exists s' k,
    generate_answer two_results echo_provider "chat" "What are the fees?" 1%positive
      (ChatState {[ 1%positive := earlier_turn ]} [])
    = (Returned ("It depends.", 1%positive), s')
    /\ (4 <= k <= 5)%nat
    /\ observations 1%positive s'
       = replicate k earlier_turn
         ++ [earlier_turn ++ [Msg "user" "What are the fees?"];
             earlier_turn ++ [Msg "user" "What are the fees?";
                              Msg "assistant" "It depends."]]
    /\ fresh (dom ({[ 1%positive := earlier_turn ]} : gmap loc (list message))) <> 1%positive
    /\ heap s' !! fresh (dom ({[ 1%positive := earlier_turn ]} : gmap loc (list message)))
       = Some (earlier_turn
               ++ [system_message; context_message
                                     [ {[ "content" := "Fees are listed in section 4." ]};
                                       {[ "title" := "no content here" ]};
                                       {[ "content" := "Accounts close after 90 days." ]} ]
                                     "What are the fees?"]).
Proof.
  apply (history_appended_in_place_after_reply two_results echo_provider "chat"
           "What are the fees?" 1%positive {[ 1%positive := earlier_turn ]} earlier_turn).
  - reflexivity.
  - reflexivity.
  - apply replied_choice.
Defined.

(** C4, as stated, fails: with the Index Store down the call raises the
    [StoreError]; there is no answer, and the session is as before. *)
Lemma store_down_no_answer :
  generate_answer store_down echo_provider "chat" "What are the fees?" 1%positive session
  = (Raised (Exn StoreError "index unavailable"), session).
Proof. reflexivity. Qed.

Lemma store_error_propagates_witness :
  generate_answer store_down echo_provider "chat" "What are the fees?" 1%positive session
  = (Raised (Exn StoreError "index unavailable"), session).
Proof.
  apply (store_error_propagates store_down echo_provider "chat"). reflexivity.
Defined.

Lemma provider_failure_becomes_answer_witness :
  exists s',
    generate_answer two_results failing_provider "chat" "What are the fees?" 1%positive session
    = (Returned ("Error generating response: quota exceeded", 1%positive), s')
    /\ heap s' !! 1%positive
       = Some (earlier_turn
               ++ [Msg "user" "What are the fees?";
                   Msg "assistant" "Error generating response: quota exceeded"]).
Proof.
  apply (provider_failure_becomes_answer two_results failing_provider "chat"
           "What are the fees?" 1%positive {[ 1%positive := earlier_turn ]} []
           earlier_turn
           [ {[ "content" := "Fees are listed in section 4." ]};
             {[ "title" := "no content here" ]};
             {[ "content" := "Accounts close after 90 days." ]} ]
           "quota exceeded").
  - reflexivity.
  - reflexivity.
  - left. exists (Exn ProviderError "quota exceeded"). split; reflexivity.
Defined.

(** C8, as stated, fails: with no result from the Index Store and a provider
    whose reply is the empty string, the answer is the empty string. *)
Lemma zero_results_empty_answer :
  (generate_answer no_results silent_provider "chat" "What are the fees?"
     1%positive session).1
  = Returned (EmptyString, 1%positive).
Proof. reflexivity. Qed.

Lemma zero_results_still_answered_witness :
  exists s' updated,
    generate_answer no_results echo_provider "chat" "What are the fees?" 1%positive session
    = (Returned ("It depends.", 1%positive), s')
    /\ heap s' !! 1%positive = Some updated
    /\ updated = earlier_turn ++ [Msg "user" "What are the fees?";
                                  Msg "assistant" "It depends."]
    /\ length updated = (length earlier_turn + 2)%nat
    /\ ("It depends." = EmptyString ->
        exists rest,
          echo_provider "chat"
            (earlier_turn
             ++ [system_message;
                 Msg "user" (context_prompt EmptyString "What are the fees?")])
            (1 # 5)%Q 1000 = Returned (EmptyString :: rest)).
Proof.
  apply (zero_results_still_answered no_results echo_provider "chat"
           "What are the fees?" 1%positive {[ 1%positive := earlier_turn ]} []
           earlier_turn "It depends.").
  - reflexivity.
  - reflexivity.
  - apply replied_choice.
Defined.

Lemma only_user_and_assistant_persisted_witness :
  exists added,
    heap (generate_answer two_results echo_provider "chat" "What are the fees?"
            1%positive session).2 !! 1%positive
    = Some (earlier_turn ++ added)
    /\ Forall (fun m => role m = "user" \/ role m = "assistant") added
    /\ (system_message ∉ added)
    /\ (forall results, context_message results "What are the fees?" ∉ added)
    /\ Forall (fun seen_hist =>
                 exists pre, seen_hist = earlier_turn ++ pre /\ (pre `prefix_of` added))
         (observations 1%positive
            (generate_answer two_results echo_provider "chat" "What are the fees?"
               1%positive session).2).
Proof.
  apply (only_user_and_assistant_persisted two_results echo_provider "chat"
           "What are the fees?" 1%positive {[ 1%positive := earlier_turn ]} earlier_turn).
  reflexivity.
Defined.

(** * Further properties of the code *)

(** ** [chunk_text]: numbers, sizes and overlaps of the chunks *)

(** The loop needs a positive step and a width that is not negative, no more:
    the overlap itself may be negative. *)
Lemma chunk_loop_from_step (words : list string) (chunk_size overlap : Z) :
  0 <= chunk_size -> 0 < chunk_size - overlap ->
  forall (k fuel j : nat) (chunks : list string),
    n_chunks (length words) (chunk_size - overlap) = (j + k)%nat ->
    (k < fuel)%nat ->
    chunk_loop fuel words chunk_size overlap
      (Z.of_nat j * (chunk_size - overlap)) chunks
    = Returned
        (chunks ++ map (fun i => Py.join " " (window words chunk_size (chunk_size - overlap) i))
                       (seq j k)).
Proof.
  intros Hc Hstep. induction k as [|k IH]; intros fuel j chunks Hn Hfuel;
    (destruct fuel as [|fuel]; [lia|]).
  - pose proof (n_chunks_reached (length words) (chunk_size - overlap) Hstep) as Hr.
    replace (j + 0)%nat with j in Hn by lia. rewrite Hn in Hr.
    simpl. destruct (Z.ltb_spec (Z.of_nat j * (chunk_size - overlap))
                       (Z.of_nat (length words))); [lia|].
    now rewrite app_nil_r.
  - pose proof (n_chunks_before (length words) (chunk_size - overlap) j Hstep) as Hb.
    rewrite chunk_loop_step by (apply Hb; lia).
    rewrite slice_window by lia.
    replace (Z.of_nat j * (chunk_size - overlap) + (chunk_size - overlap))
      with (Z.of_nat (S j) * (chunk_size - overlap)) by lia.
    rewrite IH by lia. simpl. now rewrite <- app_assoc.
Qed.

(** What the chunks are, word for word. *)
Lemma chunk_text_chunk_words (text : string) (chunk_size overlap : Z) (fuel : nat) :
  0 <= chunk_size -> 0 < chunk_size - overlap ->
  (length (Py.split text) < fuel)%nat ->
  exists chunks,
    chunk_text fuel text chunk_size overlap = Returned chunks
    /\ length chunks = n_chunks (length (Py.split text)) (chunk_size - overlap)
    /\ (forall (j : nat) (c : string),
          chunks !! j = Some c ->
          Py.split c = window (Py.split text) chunk_size (chunk_size - overlap) j).
Proof.
  intros Hc Hstep Hfuel.
  pose proof (n_chunks_le (length (Py.split text)) (chunk_size - overlap) Hstep).
  eexists. split; [|split].
  - unfold chunk_text.
    apply (chunk_loop_from_step (Py.split text) chunk_size overlap Hc Hstep
             (n_chunks (length (Py.split text)) (chunk_size - overlap)) fuel 0 []);
      [reflexivity | lia].
  - simpl. now rewrite length_map, length_seq.
  - intros j c Hj. simpl in Hj. rewrite list_lookup_fmap in Hj.
    destruct (seq 0 (n_chunks (length (Py.split text)) (chunk_size - overlap)) !! j)
      as [i|] eqn:Hi; [|discriminate].
    apply lookup_seq in Hi as [-> _]. simpl in Hj. injection Hj as <-.
    apply split_join. unfold window. apply Forall_take, Forall_drop, split_words.
Qed.

Lemma window_length (words : list string) (chunk_size step : Z) (j : nat) :
  length (window words chunk_size step j)
  = (Z.to_nat chunk_size `min` (length words - j * Z.to_nat step))%nat.
Proof. unfold window. now rewrite length_take, length_drop. Qed.

(** X1: for valid parameters the number of chunks is the number of words
    divided by the step, rounded up, and every chunk holds at least one word
    and at most [chunk_size] words. *)
Theorem chunk_text_count_and_sizes (text : string) (chunk_size overlap : Z) (fuel : nat) :
  0 <= overlap < chunk_size ->
  (length (Py.split text) < fuel)%nat ->
  exists chunks,
    chunk_text fuel text chunk_size overlap = Returned chunks
    /\ Z.of_nat (length chunks)
       = (Z.of_nat (length (Py.split text)) + (chunk_size - overlap) - 1)
         / (chunk_size - overlap)
    /\ Forall (fun c => 1 <= Z.of_nat (length (Py.split c)) <= chunk_size) chunks.
Proof.
  intros Hv Hfuel.
  destruct (chunk_text_chunk_words text chunk_size overlap fuel) as (chunks & Hrun & Hlen & Hw);
    [lia | lia | exact Hfuel |].
  exists chunks. split; [exact Hrun|]. split.
  - rewrite Hlen. unfold n_chunks. rewrite Z2Nat.id; [reflexivity|].
    apply Z.div_pos; lia.
  - apply Forall_lookup. intros j c Hj.
    pose proof (lookup_lt_Some _ _ _ Hj) as Hlt. rewrite Hlen in Hlt.
    pose proof (n_chunks_before (length (Py.split text)) (chunk_size - overlap) j
                  ltac:(lia) Hlt) as Hb.
    rewrite (Hw j c Hj), window_length.
    assert (Z.of_nat (j * Z.to_nat (chunk_size - overlap))
            = Z.of_nat j * (chunk_size - overlap)) by lia.
    lia.
Qed.

Lemma chunk_text_count_and_sizes_witness :
  exists chunks,
    chunk_text 8 "a b c d e f g" 3 1 = Returned chunks
    /\ Z.of_nat (length chunks) = (Z.of_nat 7 + (3 - 1) - 1) / (3 - 1)
    /\ Forall (fun c => 1 <= Z.of_nat (length (Py.split c)) <= 3) chunks.
Proof.
  apply (chunk_text_count_and_sizes "a b c d e f g" 3 1 8); [lia | vm_compute; lia].
Defined.

(** X2: consecutive chunks overlap as announced: the first [overlap] words
    of a chunk are the words of the chunk before it from position
    [chunk_size - overlap] on. *)
Theorem chunk_text_consecutive_overlap (text : string) (chunk_size overlap : Z)
    (fuel : nat) (chunks : list string) (j : nat) (c c' : string) :
  0 <= overlap < chunk_size ->
  (length (Py.split text) < fuel)%nat ->
  chunk_text fuel text chunk_size overlap = Returned chunks ->
  chunks !! j = Some c ->
  chunks !! S j = Some c' ->
  take (Z.to_nat overlap) (Py.split c')
  = drop (Z.to_nat (chunk_size - overlap)) (Py.split c).
Proof.
  intros Hv Hfuel Hrun Hj Hj'.
  destruct (chunk_text_chunk_words text chunk_size overlap fuel) as (chunks' & Hrun' & _ & Hw);
    [lia | lia | exact Hfuel |].
  rewrite Hrun in Hrun'. injection Hrun' as <-.
  rewrite (Hw _ _ Hj), (Hw _ _ Hj'). unfold window.
  set (s := Z.to_nat (chunk_size - overlap)). set (o := Z.to_nat overlap).
  replace (Z.to_nat chunk_size) with (s + o)%nat by (unfold s, o; lia).
  rewrite <- take_drop_commute, drop_drop, take_take.
  replace (j * s + s)%nat with (S j * s)%nat by lia.
  f_equal. lia.
Qed.

Lemma chunk_text_consecutive_overlap_witness :
  take (Z.to_nat 1) (Py.split "c d e") = drop (Z.to_nat (3 - 1)) (Py.split "a b c").
Proof.
  apply (chunk_text_consecutive_overlap "a b c d e f g" 3 1 8
           ["a b c"; "c d e"; "e f g"; "g"] 0);
    [lia | vm_compute; lia | reflexivity | reflexivity | reflexivity].
Defined.

(** Windows that start every [c] words and are [c] words wide tile a list. *)
Lemma windows_tile (c : nat) (m : nat) (l : list string) :
  (length l <= m * c)%nat ->
  concat (map (fun i : nat => take c (drop (i * c) l)) (seq 0 m)) = l.
Proof.
  revert l. induction m as [|m IH]; intros l Hl.
  - destruct l; [reflexivity | simpl in Hl; lia].
  - simpl seq. rewrite <- fmap_S_seq. simpl.
    rewrite drop_0.
    transitivity (take c l ++ drop c l); [|apply take_drop].
    f_equal.
    transitivity (concat (map (fun i : nat => take c (drop (i * c) (drop c l))) (seq 0 m)));
      [|apply IH; rewrite length_drop; lia].
    f_equal. rewrite <- list_fmap_compose. apply list_fmap_ext.
    intros _ i _. simpl. now rewrite drop_drop.
Qed.

(** X3: with no overlap the chunks partition the text: their words, chunk
    after chunk, are the words of the text. *)
Theorem chunk_text_no_overlap_partitions (text : string) (chunk_size : Z) (fuel : nat) :
  0 < chunk_size ->
  (length (Py.split text) < fuel)%nat ->
  exists chunks,
    chunk_text fuel text chunk_size 0 = Returned chunks
    /\ concat (map Py.split chunks) = Py.split text.
Proof.
  intros Hc Hfuel.
  pose proof (n_chunks_le (length (Py.split text)) (chunk_size - 0) ltac:(lia)).
  pose proof (n_chunks_reached (length (Py.split text)) (chunk_size - 0) ltac:(lia)) as Hr.
  eexists. split; [apply chunk_text_windows; [lia | exact Hfuel]|].
  rewrite <- list_fmap_compose.
  rewrite (list_fmap_ext _
             (fun i : nat => take (Z.to_nat chunk_size)
                               (drop (i * Z.to_nat chunk_size) (Py.split text)))).
  - apply windows_tile. nia.
  - intros _ i _. simpl. rewrite split_join.
    + unfold window. now rewrite Z.sub_0_r.
    + unfold window. apply Forall_take, Forall_drop, split_words.
Qed.

Lemma chunk_text_no_overlap_partitions_witness :
  exists chunks,
    chunk_text 8 "a b c d e f g" 3 0 = Returned chunks
    /\ concat (map Py.split chunks) = Py.split "a b c d e f g".
Proof.
  apply (chunk_text_no_overlap_partitions "a b c d e f g" 3 8); [lia | vm_compute; lia].
Defined.

(** X4: a text of at least one word and at most [chunk_size - overlap] words
    gives a single chunk: its words joined by single spaces. *)
Theorem chunk_text_short_text (text : string) (chunk_size overlap : Z) (fuel : nat) :
  0 <= overlap < chunk_size ->
  Py.split text <> [] ->
  Z.of_nat (length (Py.split text)) <= chunk_size - overlap ->
  (1 < fuel)%nat ->
  chunk_text fuel text chunk_size overlap = Returned [Py.join " " (Py.split text)].
Proof.
  intros Hv Hne Hshort Hfuel. unfold chunk_text.
  assert (Hn : (0 < length (Py.split text))%nat)
    by (destruct (Py.split text); [congruence | simpl; lia]).
  assert (H1 : n_chunks (length (Py.split text)) (chunk_size - overlap) = 1%nat).
  { unfold n_chunks.
    assert ((Z.of_nat (length (Py.split text)) + (chunk_size - overlap) - 1)
            / (chunk_size - overlap) = 1); [|lia].
    symmetry. apply (Z.div_unique _ _ 1 (Z.of_nat (length (Py.split text)) - 1)); lia. }
  pose proof (chunk_loop_from (Py.split text) chunk_size overlap Hv 1 fuel 0 [] H1 Hfuel)
    as Hrun.
  change (Z.of_nat 0 * (chunk_size - overlap)) with 0 in Hrun.
  rewrite Hrun. unfold window. simpl.
  rewrite drop_0, take_ge by lia. reflexivity.
Qed.

Lemma chunk_text_short_text_witness :
  chunk_text 2 "  one   two
three " 500 50 = Returned ["one two three"].
Proof.
  apply (chunk_text_short_text "  one   two
three " 500 50 2); [lia | discriminate | vm_compute; discriminate | lia].
Defined.

(** X5: nothing rejects a negative overlap, and with one the step is larger
    than the chunk: a word that occurs only at index [chunk_size] of the text
    is in no chunk. *)
Theorem chunk_text_negative_overlap_skips (text : string) (chunk_size overlap : Z)
    (fuel : nat) (w : string) :
  0 < chunk_size -> overlap < 0 ->
  (length (Py.split text) < fuel)%nat ->
  Py.split text !! Z.to_nat chunk_size = Some w ->
  (forall i, Py.split text !! i = Some w -> i = Z.to_nat chunk_size) ->
  exists chunks,
    chunk_text fuel text chunk_size overlap = Returned chunks
    /\ Forall (fun c => w ∉ Py.split c) chunks.
Proof.
  intros Hc Ho Hfuel Hw Honly.
  destruct (chunk_text_chunk_words text chunk_size overlap fuel) as (chunks & Hrun & _ & Hch);
    [lia | lia | exact Hfuel |].
  exists chunks. split; [exact Hrun|].
  apply Forall_lookup. intros j c Hj Hin.
  rewrite (Hch j c Hj) in Hin.
  apply list_elem_of_lookup in Hin as [k Hk].
  pose proof (lookup_lt_Some _ _ _ Hk) as Hlt. rewrite window_length in Hlt.
  apply window_lookup in Hk. apply Honly in Hk.
  destruct j as [|j]; [lia|].
  assert (Z.to_nat chunk_size < Z.to_nat (chunk_size - overlap))%nat by lia.
  nia.
Qed.

Lemma chunk_text_negative_overlap_skips_witness :
  exists chunks,
    chunk_text 8 "a b c d e f g" 2 (-1) = Returned chunks
    /\ Forall (fun c => "c" ∉ Py.split c) chunks.
Proof.
  apply (chunk_text_negative_overlap_skips "a b c d e f g" 2 (-1) 8 "c");
    [lia | lia | vm_compute; lia | reflexivity |].
  intros i Hi.
  destruct i as [|[|[|[|[|[|[|i]]]]]]]; try discriminate Hi; reflexivity.
Defined.

(** ** [read_pdf_from_blob]: pages and words *)

(** A whitespace character between two strings keeps their words apart. *)
Lemma split_from_separated (a b cur : string) (c : ascii) :
  Py.isspace c = true ->
  Py.split_from cur (a +:+ String c b) = Py.split_from cur a ++ Py.split b.
Proof.
  intros Hc. revert cur. induction a as [|x a IH]; intros cur.
  - rewrite append_empty_l. simpl. rewrite Hc.
    now destruct (Py.is_empty cur).
  - rewrite append_cons. simpl.
    destruct (Py.isspace x); [|apply IH].
    destruct (Py.is_empty cur); [apply IH|]. simpl. f_equal. apply IH.
Qed.

(** The text accumulated page after page splits into the words of the pages. *)
Lemma read_pages_words (pages : list string) (text : string) :
  (forall x, Py.split (text +:+ x) = Py.split text ++ Py.split x) ->
  Py.split
    (fold_left
       (fun text page_text =>
          if Py.is_empty page_text then text else text +:+ page_text +:+ nl)
       pages text)
  = Py.split text ++ concat (map Py.split pages).
Proof.
  revert text. induction pages as [|p pages IH]; intros text Hclosed; simpl.
  - now rewrite app_nil_r.
  - destruct p as [|x p]; simpl Py.is_empty; cbv iota.
    + now rewrite IH.
    + assert (Hp : forall y, Py.split (String x p +:+ nl +:+ y)
                             = Py.split (String x p) ++ Py.split y).
      { intros y. unfold Py.split. apply split_from_separated. reflexivity. }
      assert (Hp0 : Py.split (String x p +:+ nl) = Py.split (String x p)).
      { pose proof (Hp EmptyString) as H0. rewrite append_empty_r in H0.
        rewrite H0. apply app_nil_r. }
      rewrite IH.
      * now rewrite Hclosed, Hp0, <- app_assoc.
      * intros y. rewrite !append_assoc, !Hclosed, Hp, Hp0.
        now rewrite <- app_assoc.
Qed.

Lemma read_pdf_from_blob_returns (b : blob) (pages : list string) :
  blob_pages b = Returned pages ->
  exists text,
    read_pdf_from_blob b = Returned text
    /\ Py.split text = concat (map Py.split pages).
Proof.
  intros Hb. unfold read_pdf_from_blob. rewrite Hb. eexists. split; [reflexivity|].
  now rewrite read_pages_words.
Qed.

(** X6: when the blob can be read, the words of the text returned are the
    words of the pages, page after page: a page boundary never glues two
    words, and a page without text adds nothing. *)
Theorem read_pdf_from_blob_words (b : blob) (pages : list string) :
  blob_pages b = Returned pages ->
  exists text,
    read_pdf_from_blob b = Returned text
    /\ Py.split text = concat (map Py.split pages).
Proof. apply read_pdf_from_blob_returns. Qed.

Lemma read_pdf_from_blob_words_witness :
  exists text,
    read_pdf_from_blob (Blob "a.pdf" (Returned ["alpha beta"; EmptyString; "gamma"]))
    = Returned text
    /\ Py.split text
       = concat (map Py.split ["alpha beta"; EmptyString; "gamma"]).
Proof.
  apply (read_pdf_from_blob_words
           (Blob "a.pdf" (Returned ["alpha beta"; EmptyString; "gamma"]))).
  reflexivity.
Defined.

(** ** The ingestion loop: what reaches the Index Store *)

Section IngestionMore.

Context {vector : Type}.
Variable embed : string -> outcome vector.
Variable uuid4 : nat -> string.
Variable upload_fault : list (record vector) -> option exn.

Local Abbreviation ingest_all := (ingest vector embed uuid4 upload_fault).
Local Abbreviation ingest_one := (process_blob vector embed uuid4 upload_fault).
Local Abbreviation embed_all := (embed_chunks vector embed uuid4).

(** X7: blobs whose name does not end in [.pdf] are skipped: ingesting a
    container is ingesting its PDFs. *)
Theorem ingest_only_pdfs (fuel : nat) (blobs : list blob) (s : ingest_state vector) :
  ingest_all fuel blobs s
  = ingest_all fuel (List.filter (fun b => Py.endswith (blob_name b) ".pdf") blobs) s.
Proof.
  revert s. induction blobs as [|b blobs IH]; intros s; [reflexivity|].
  simpl. destruct (Py.endswith (blob_name b) ".pdf") eqn:Hpdf.
  - simpl. unfold mbind, M_bind.
    destruct (ingest_one fuel b s) as [[[]| |] s']; [apply IH | reflexivity | reflexivity].
  - unfold mbind, M_bind, process_blob. rewrite Hpdf. simpl. apply IH.
Qed.

(** The records of the chunks of one document: identifiers drawn one after
    the other from the [n]-th on. *)
Lemma embed_chunks_records (vec : string -> vector) (chunks : list string)
    (docs : list (record vector)) (s : ingest_state vector) :
  Forall (fun c => embed c = Returned (vec c)) chunks ->
  embed_all chunks docs s
  = (Returned (docs ++ imap (fun i c => Record_ (uuid4 (uuids_drawn s + i)) c (vec c)) chunks),
     IngestState (index_store s) (uuids_drawn s + length chunks)%nat (stdout s)).
Proof.
  revert docs s. induction chunks as [|c chunks IH]; intros docs s Hok.
  - simpl. rewrite app_nil_r, Nat.add_0_r. now destruct s.
  - apply Forall_cons in Hok as [Hc Hok]. simpl.
    unfold mbind, M_bind, lift, fresh_uuid. rewrite Hc. simpl.
    rewrite IH by exact Hok. simpl. rewrite <- app_assoc. simpl.
    rewrite Nat.add_0_r. f_equal; [f_equal; f_equal; f_equal | f_equal; lia].
    apply imap_ext. intros i x _. simpl. f_equal. f_equal. lia.
Qed.

(** The embedding of some chunk raises: the loop stops there. *)
Lemma embed_chunks_failure (vec : string -> vector) (before after : list string)
    (c : string) (e : exn) (docs : list (record vector)) (s : ingest_state vector) :
  Forall (fun x => embed x = Returned (vec x)) before ->
  embed c = Raised e ->
  embed_all (before ++ c :: after) docs s
  = (Raised e,
     IngestState (index_store s) (uuids_drawn s + length before)%nat (stdout s)).
Proof.
  revert docs s. induction before as [|x before IH]; intros docs s Hok Hc.
  - simpl. unfold mbind, M_bind, lift. rewrite Hc. rewrite Nat.add_0_r. now destruct s.
  - apply Forall_cons in Hok as [Hx Hok]. simpl.
    unfold mbind, M_bind, lift, fresh_uuid. rewrite Hx. simpl.
    rewrite IH by assumption. simpl. do 2 f_equal. lia.
Qed.

(** X9: a PDF that is read, chunked and embedded without failure, and whose
    upload is accepted, adds to the Index Store exactly one record per chunk,
    in chunk order: the chunk as content, its embedding, and identifiers
    drawn one after the other; the count printed is the number of chunks. *)
Theorem process_blob_uploads_one_record_per_chunk (fuel : nat) (b : blob) (text : string)
    (chunks : list string) (vec : string -> vector) (s : ingest_state vector) :
  Py.endswith (blob_name b) ".pdf" = true ->
  read_pdf_from_blob b = Returned text ->
  chunk_text fuel text default_chunk_size default_overlap = Returned chunks ->
  chunks <> [] ->
  Forall (fun c => embed c = Returned (vec c)) chunks ->
  upload_fault (imap (fun i c => Record_ (uuid4 (uuids_drawn s + i)) c (vec c)) chunks)
  = None ->
  ingest_one fuel b s
  = (Returned tt,
     IngestState
       (index_store s
        ++ imap (fun i c => Record_ (uuid4 (uuids_drawn s + i)) c (vec c)) chunks)
       (uuids_drawn s + length chunks)%nat
       (stdout s
        ++ ["Processing " +:+ blob_name b +:+ " from storage...";
            "Uploaded " +:+ pretty (length chunks) +:+ " chunks from " +:+ blob_name b])).
Proof.
  intros Hpdf Hread Hchunk Hne Hembed Hup.
  unfold process_blob. rewrite Hpdf.
  unfold mbind, M_bind at 1. unfold print at 1, modify at 1.
  unfold mbind, M_bind at 1. unfold lift at 1. rewrite Hread.
  unfold mbind, M_bind at 1. unfold lift at 1. rewrite Hchunk.
  unfold mbind, M_bind at 1.
  rewrite (embed_chunks_records vec chunks [] _ Hembed). simpl.
  destruct (imap (fun i c => Record_ (uuid4 (uuids_drawn s + i)) c (vec c)) chunks)
    as [|r records] eqn:Himap.
  { apply (f_equal length) in Himap. rewrite length_imap in Himap.
    destruct chunks; [congruence | discriminate Himap]. }
  unfold mbind, M_bind, upload_documents, print, modify. simpl.
  rewrite Hup. simpl. rewrite <- app_assoc. simpl.
  apply (f_equal length) in Himap. rewrite length_imap in Himap. simpl in Himap.
  now rewrite <- Himap.
Qed.

(** X10: when the embedding of one chunk raises, the exception ends the
    document and the run: nothing of the document is uploaded, not even the
    chunks already embedded. *)
Theorem process_blob_embedding_error_uploads_nothing (fuel : nat) (b : blob)
    (text : string) (before after : list string) (c : string) (e : exn)
    (vec : string -> vector) (s : ingest_state vector) :
  Py.endswith (blob_name b) ".pdf" = true ->
  read_pdf_from_blob b = Returned text ->
  chunk_text fuel text default_chunk_size default_overlap
  = Returned (before ++ c :: after) ->
  Forall (fun x => embed x = Returned (vec x)) before ->
  embed c = Raised e ->
  ingest_one fuel b s
  = (Raised e,
     IngestState (index_store s) (uuids_drawn s + length before)%nat
       (stdout s ++ ["Processing " +:+ blob_name b +:+ " from storage..."])).
Proof.
  intros Hpdf Hread Hchunk Hok Hc.
  unfold process_blob. rewrite Hpdf.
  unfold mbind, M_bind at 1. unfold print at 1, modify at 1.
  unfold mbind, M_bind at 1. unfold lift at 1. rewrite Hread.
  unfold mbind, M_bind at 1. unfold lift at 1. rewrite Hchunk.
  unfold mbind, M_bind at 1.
  now rewrite (embed_chunks_failure vec before after c e [] _ Hok Hc).
Qed.

(** X11: a PDF whose pages hold no word gives no chunk, and then neither
    the embedding service nor the Index Store is called: the blob is reported
    as having no chunks, whatever these services would have answered. *)
Theorem process_blob_without_words (fuel : nat) (b : blob) (pages : list string)
    (s : ingest_state vector) :
  Py.endswith (blob_name b) ".pdf" = true ->
  blob_pages b = Returned pages ->
  concat (map Py.split pages) = [] ->
  (0 < fuel)%nat ->
  ingest_one fuel b s
  = (Returned tt,
     IngestState (index_store s) (uuids_drawn s)
       (stdout s
        ++ ["Processing " +:+ blob_name b +:+ " from storage...";
            "No chunks to upload for " +:+ blob_name b])).
Proof.
  intros Hpdf Hb Hnone Hfuel.
  destruct (read_pdf_from_blob_returns b pages Hb) as (text & Hread & Hwords).
  rewrite Hnone in Hwords.
  assert (Hchunk : chunk_text fuel text default_chunk_size default_overlap = Returned []).
  { unfold chunk_text. rewrite Hwords. destruct fuel; [lia | reflexivity]. }
  unfold process_blob. rewrite Hpdf.
  unfold mbind, M_bind at 1. unfold print at 1, modify at 1.
  unfold mbind, M_bind at 1. unfold lift at 1. rewrite Hread.
  unfold mbind, M_bind at 1. unfold lift at 1. rewrite Hchunk.
  simpl. unfold mbind, M_bind, mret, M_ret, print, modify. simpl.
  now rewrite <- app_assoc.
Qed.

(** Embedding the chunks touches neither the Index Store nor the output. *)
Lemma embed_chunks_keeps (chunks : list string) (docs : list (record vector))
    (s : ingest_state vector) :
  index_store (embed_all chunks docs s).2 = index_store s
  /\ stdout (embed_all chunks docs s).2 = stdout s.
Proof.
  revert docs s. induction chunks as [|c chunks IH]; intros docs s; [now split|].
  simpl. unfold mbind, M_bind, lift, fresh_uuid.
  destruct (embed c) as [v|e|]; simpl; [|now split|now split].
  apply (IH (docs ++ [Record_ (uuid4 (uuids_drawn s)) c v])
           (IngestState (index_store s) (S (uuids_drawn s)) (stdout s))).
Qed.

Lemma bind_run {S A B : Type} (m : M S A) (f : A -> M S B) (s : S) :
  (m ≫= f) s
  = match m s with
    | (Returned a, s') => f a s'
    | (Raised e, s') => (Raised e, s')
    | (OutOfFuel, s') => (OutOfFuel, s')
    end.
Proof. reflexivity. Qed.

Lemma process_blob_only_adds (fuel : nat) (b : blob) (s : ingest_state vector) :
  index_store s `prefix_of` index_store (ingest_one fuel b s).2
  /\ stdout s `prefix_of` stdout (ingest_one fuel b s).2.
Proof.
  remember (ingest_one fuel b s) as r eqn:Hr.
  unfold process_blob in Hr.
  destruct (Py.endswith (blob_name b) ".pdf"); [|now subst r].
  rewrite bind_run in Hr. unfold print at 1, modify at 1 in Hr.
  rewrite bind_run in Hr. unfold lift at 1 in Hr.
  destruct (read_pdf_from_blob b) as [text|e|];
    [|subst r; split; [reflexivity | now apply prefix_app_r]..].
  rewrite bind_run in Hr. unfold lift at 1 in Hr.
  destruct (chunk_text fuel text default_chunk_size default_overlap) as [chunks|e|];
    [|subst r; split; [reflexivity | now apply prefix_app_r]..].
  rewrite bind_run in Hr.
  match type of Hr with
  | context [embed_chunks vector embed uuid4 chunks [] ?s0] =>
      pose proof (embed_chunks_keeps chunks [] s0) as [Hi Ho];
      destruct (embed_chunks vector embed uuid4 chunks [] s0) as [[docs|e|] s1]
  end; simpl in Hi, Ho;
    [|subst r; simpl; split; [now rewrite Hi | rewrite Ho; now apply prefix_app_r]..].
  destruct docs as [|d docs].
  - subst r. unfold print, modify. simpl. rewrite Hi, Ho, <- app_assoc.
    split; [reflexivity | now apply prefix_app_r].
  - rewrite bind_run in Hr. unfold upload_documents, print, modify in Hr.
    destruct (upload_fault (d :: docs)); subst r; simpl; rewrite Hi, Ho.
    + split; [reflexivity | now apply prefix_app_r].
    + rewrite <- app_assoc. split; now apply prefix_app_r.
Qed.

(** X8: the run only ever adds: however it ends, the records that were in
    the Index Store are still there, in front and unchanged, and so are the
    lines already printed. *)
Theorem ingest_only_adds (fuel : nat) (blobs : list blob) (s : ingest_state vector) :
  index_store s `prefix_of` index_store (ingest_all fuel blobs s).2
  /\ stdout s `prefix_of` stdout (ingest_all fuel blobs s).2.
Proof.
  revert s. induction blobs as [|b blobs IH]; intros s; [now split|].
  simpl. unfold mbind, M_bind.
  pose proof (process_blob_only_adds fuel b s) as [Hi Ho].
  destruct (ingest_one fuel b s) as [[[]| |] s1]; simpl in *; [|now split..].
  destruct (IH s1) as [Hi' Ho']. split; etrans; eassumption.
Qed.

End IngestionMore.

Lemma ingest_only_pdfs_example :
  ingest (list Z) stub_embed stub_uuid4 stub_upload_fault 10 mixed_container ingest_start
  = (Returned tt,
     IngestState
       [Record_ "id-0" "alpha beta gamma" [16]; Record_ "id-1" "delta" [5]]
       2
       ["Processing a.pdf from storage..."; "Uploaded 1 chunks from a.pdf";
        "Processing c.pdf from storage..."; "Uploaded 1 chunks from c.pdf"]).
Proof. vm_compute. reflexivity. Qed.

Lemma process_blob_uploads_one_record_per_chunk_witness :
  process_blob (list Z) stub_embed stub_uuid4 stub_upload_fault 4 big_blob ingest_start
  = (Returned tt,
     IngestState
       (imap (fun i c => Record_ (stub_uuid4 i) c [Z.of_nat (String.length c)])
          (map (fun i : nat => Py.join " " (window (Py.split thousand_words) 500 450 i))
             [0; 1; 2]%nat))
       3
       ["Processing big.pdf from storage..."; "Uploaded 3 chunks from big.pdf"]).
Proof.
  apply (process_blob_uploads_one_record_per_chunk stub_embed stub_uuid4 stub_upload_fault
           4 big_blob (thousand_words +:+ nl)
           (map (fun i : nat => Py.join " " (window (Py.split thousand_words) 500 450 i))
              [0; 1; 2]%nat)
           (fun c => [Z.of_nat (String.length c)]) ingest_start).
  - reflexivity.
  - vm_compute. reflexivity.
  - vm_compute. reflexivity.
  - discriminate.
  - repeat constructor.
  - reflexivity.
Defined.

Lemma process_blob_embedding_error_uploads_nothing_witness :
  process_blob (list Z) flaky_embed stub_uuid4 stub_upload_fault 4 big_blob ingest_start
  = (Raised (Exn ProviderError "rate limit"),
     IngestState [] 1 ["Processing big.pdf from storage..."]).
Proof.
  apply (process_blob_embedding_error_uploads_nothing flaky_embed stub_uuid4
           stub_upload_fault 4 big_blob (thousand_words +:+ nl)
           [Py.join " " (window (Py.split thousand_words) 500 450 0)]
           [Py.join " " (window (Py.split thousand_words) 500 450 2)]
           (Py.join " " (window (Py.split thousand_words) 500 450 1))
           (Exn ProviderError "rate limit")
           (fun c => [Z.of_nat (String.length c)]) ingest_start).
  - reflexivity.
  - vm_compute. reflexivity.
  - vm_compute. reflexivity.
  - constructor; [vm_compute; reflexivity | constructor].
  - vm_compute. reflexivity.
Defined.

Lemma process_blob_without_words_witness :
  process_blob (list Z) stub_embed stub_uuid4 stub_upload_fault 1 blank_blob ingest_start
  = (Returned tt,
     IngestState [] 0
       ["Processing blank.pdf from storage..."; "No chunks to upload for blank.pdf"]).
Proof.
  apply (process_blob_without_words stub_embed stub_uuid4 stub_upload_fault 1 blank_blob
           [EmptyString; "   "] ingest_start);
    [reflexivity | reflexivity | reflexivity | lia].
Defined.

Section IngestionRuns.

Context {vector : Type}.
Variable embed : string -> outcome vector.
Variable uuid4 : nat -> string.
Variable upload_fault : list (record vector) -> option exn.

Local Abbreviation run_all := (ingest vector embed uuid4 upload_fault).
Local Abbreviation run_one := (process_blob vector embed uuid4 upload_fault).

Lemma embed_chunks_contents (chunks : list string) (docs docs' : list (record vector))
    (s s' : ingest_state vector) :
  embed_chunks vector embed uuid4 chunks docs s = (Returned docs', s') ->
  exists new,
    docs' = docs ++ new /\ map rec_content new = chunks
    /\ index_store s' = index_store s /\ stdout s' = stdout s.
Proof.
  revert docs s. induction chunks as [|c chunks IH]; intros docs s Hrun; simpl in Hrun.
  - injection Hrun as <- <-. exists []. now rewrite app_nil_r.
  - rewrite bind_run in Hrun. unfold lift at 1 in Hrun.
    destruct (embed c) as [v|e|]; [|discriminate..].
    rewrite bind_run in Hrun. unfold fresh_uuid at 1 in Hrun.
    apply IH in Hrun as (new & -> & Hnew & Hi & Ho).
    exists (Record_ (uuid4 (uuids_drawn s)) c v :: new).
    rewrite <- app_assoc. simpl. now rewrite Hnew.
Qed.

Lemma process_blob_contents (fuel : nat) (b : blob) (s s' : ingest_state vector) :
  run_one fuel b s = (Returned tt, s') ->
  exists added,
    index_store s' = index_store s ++ added
    /\ map rec_content added = blob_chunks fuel b.
Proof.
  unfold process_blob, blob_chunks. intros Hrun.
  destruct (Py.endswith (blob_name b) ".pdf").
  2: { injection Hrun as <-. exists []. now rewrite app_nil_r. }
  rewrite bind_run in Hrun. unfold print at 1, modify at 1 in Hrun.
  rewrite bind_run in Hrun. unfold lift at 1 in Hrun.
  destruct (read_pdf_from_blob b) as [text|e|]; [|discriminate..].
  rewrite bind_run in Hrun. unfold lift at 1 in Hrun.
  destruct (chunk_text fuel text default_chunk_size default_overlap) as [chunks|e|];
    [|discriminate..].
  rewrite bind_run in Hrun.
  match type of Hrun with
  | context [embed_chunks vector embed uuid4 chunks [] ?s0] =>
      destruct (embed_chunks vector embed uuid4 chunks [] s0) as [[docs|e|] s1] eqn:He
  end; [|discriminate..].
  apply embed_chunks_contents in He as (new & -> & Hnew & Hi & _). simpl in Hi.
  destruct new as [|d new]; simpl in Hrun.
  - unfold print, modify in Hrun. injection Hrun as <-. simpl.
    exists []. now rewrite app_nil_r, Hi.
  - rewrite bind_run in Hrun. unfold upload_documents, print, modify in Hrun.
    destruct (upload_fault (d :: new)); [discriminate|].
    injection Hrun as <-. simpl. exists (d :: new). now rewrite Hi.
Qed.

Lemma ingest_adds_the_chunks_aux (fuel : nat) (blobs : list blob)
    (s s' : ingest_state vector) :
  run_all fuel blobs s = (Returned tt, s') ->
  exists added,
    index_store s' = index_store s ++ added
    /\ map rec_content added = concat (map (blob_chunks fuel) blobs).
Proof.
  revert s. induction blobs as [|b blobs IH]; intros s Hrun; simpl in Hrun.
  - injection Hrun as <-. exists []. now rewrite app_nil_r.
  - rewrite bind_run in Hrun.
    destruct (run_one fuel b s) as [[[]|e|] s1] eqn:Hb; [|discriminate..].
    apply process_blob_contents in Hb as (added1 & Hs1 & Hc1).
    apply IH in Hrun as (added2 & Hs2 & Hc2).
    exists (added1 ++ added2). split.
    + now rewrite Hs2, Hs1, app_assoc.
    + simpl. now rewrite map_app, Hc1, Hc2.
Qed.

(** X12: after a run that came back normally the Index Store has gained, in
    order, one record for each chunk of each PDF of the container, with that
    chunk as content, and nothing else. *)
Theorem ingest_adds_the_chunks (fuel : nat) (blobs : list blob)
    (s s' : ingest_state vector) :
  run_all fuel blobs s = (Returned tt, s') ->
  exists added,
    index_store s' = index_store s ++ added
    /\ map rec_content added = concat (map (blob_chunks fuel) blobs).
Proof. apply ingest_adds_the_chunks_aux. Qed.

(** X13: nothing is deduplicated: a second run over the same container adds
    records with the same contents once more, after those of the first. *)
Theorem ingest_twice_duplicates (fuel : nat) (blobs : list blob)
    (s s1 s2 : ingest_state vector) :
  run_all fuel blobs s = (Returned tt, s1) ->
  run_all fuel blobs s1 = (Returned tt, s2) ->
  exists first second,
    index_store s2 = index_store s ++ first ++ second
    /\ map rec_content first = map rec_content second
    /\ length second = length first.
Proof.
  intros H1 H2.
  destruct (ingest_adds_the_chunks_aux fuel blobs s s1 H1) as (first & Hs1 & Hc1).
  destruct (ingest_adds_the_chunks_aux fuel blobs s1 s2 H2) as (second & Hs2 & Hc2).
  exists first, second. split; [now rewrite Hs2, Hs1, app_assoc|].
  split; [congruence|].
  rewrite <- (length_map rec_content second), <- (length_map rec_content first).
  congruence.
Qed.

End IngestionRuns.

Lemma ingest_adds_the_chunks_witness :
  exists added,
    index_store
      (ingest (list Z) stub_embed stub_uuid4 stub_upload_fault 10 mixed_container
         ingest_start).2
    = index_store ingest_start ++ added
    /\ map rec_content added = concat (map (blob_chunks 10) mixed_container).
Proof.
  apply (ingest_adds_the_chunks stub_embed stub_uuid4 stub_upload_fault 10 mixed_container
           ingest_start).
  vm_compute. reflexivity.
Defined.

Lemma ingest_twice_duplicates_witness :
  exists first second,
    index_store
      (ingest (list Z) stub_embed stub_uuid4 stub_upload_fault 10 mixed_container
         (ingest (list Z) stub_embed stub_uuid4 stub_upload_fault 10 mixed_container
            ingest_start).2).2
    = index_store ingest_start ++ first ++ second
    /\ map rec_content first = map rec_content second
    /\ length second = length first.
Proof.
  apply (ingest_twice_duplicates stub_embed stub_uuid4 stub_upload_fault 10 mixed_container
           ingest_start
           (ingest (list Z) stub_embed stub_uuid4 stub_upload_fault 10 mixed_container
              ingest_start).2);
    vm_compute; reflexivity.
Defined.

(** ** Retrieval: which results make the context *)

(** The usable content of one result: its [content] field when it has one
    that is not empty. *)
Lemma collect_content_omap (results : list (gmap string string)) (chunks : list string) :
  collect_content results chunks
  = chunks
    ++ omap (fun r : gmap string string =>
               match r !! "content" with
               | Some c => if Py.is_empty c then None else Some c
               | None => None
               end) results.
Proof.
  revert chunks. induction results as [|r results IH]; intros chunks; simpl.
  - now rewrite app_nil_r.
  - destruct (r !! "content") as [c|]; [|apply IH].
    destruct (Py.is_empty c); [apply IH|].
    now rewrite IH, <- app_assoc.
Qed.

Lemma omap_length_le {A B} (f : A -> option B) (l : list A) :
  (length (omap f l) <= length l)%nat.
Proof.
  induction l as [|x l IH]; csimpl; [lia|].
  destruct (f x); simpl; lia.
Qed.

Section ChatbotMore.

Variable search : string -> Z -> outcome (list (gmap string string)).
Variable create : string -> list message -> Q -> Z -> outcome (list string).
Variable deployment : string.

Local Abbreviation ask := (generate_answer search create deployment).

(** X14: [get_top_chunks] returns the [content] fields of the results, in
    the order of the results, leaving out the results without the field or
    with an empty one: no chunk returned is empty, and the heap is not
    touched. *)
Theorem get_top_chunks_contents (q : string) (top_k : Z) (s : chat_state)
    (results : list (gmap string string)) :
  search q top_k = Returned results ->
  exists chunks,
    get_top_chunks search q top_k s
    = (Returned chunks, ChatState (heap s) (seen s ++ [heap s]))
    /\ chunks
       = omap (fun r : gmap string string =>
                 match r !! "content" with
                 | Some c => if Py.is_empty c then None else Some c
                 | None => None
                 end) results
    /\ Forall (fun c => c <> EmptyString) chunks
    /\ (length chunks <= length results)%nat.
Proof.
  intros Hs. eexists. split; [|split; [reflexivity|split]].
  - unfold get_top_chunks. rewrite bind_run. unfold lift at 1. rewrite Hs.
    rewrite bind_run. unfold observe, modify. simpl.
    now rewrite collect_content_omap.
  - apply Forall_forall. intros c Hc. apply list_elem_of_omap in Hc as (r & _ & Hr).
    destruct (r !! "content") as [c'|]; [|discriminate].
    destruct c'; [discriminate|]. injection Hr as <-. discriminate.
  - apply omap_length_le.
Qed.

(** X15: results none of which has a usable [content] change nothing: the
    call behaves exactly as with no result at all. *)
Theorem results_without_content_as_no_results (q : string) (h : loc) (s : chat_state)
    (results : list (gmap string string)) :
  search q 10 = Returned results ->
  Forall (fun r : gmap string string =>
            r !! "content" = None \/ r !! "content" = Some EmptyString) results ->
  ask q h s = generate_answer (fun _ _ => Returned []) create deployment q h s.
Proof.
  intros Hs Hnone.
  assert (Hc : collect_content results [] = []).
  { rewrite collect_content_omap. simpl. clear Hs.
    induction Hnone as [|r results [Hr|Hr] _ IH]; csimpl; [reflexivity|..];
      rewrite Hr; simpl; exact IH. }
  unfold generate_answer, get_top_chunks, mbind, M_bind, lift, observe, modify, mret, M_ret.
  rewrite Hs. now rewrite Hc.
Qed.

End ChatbotMore.

(** ** The answering engine: the heap after a call, and two calls in a row *)

Section ChatbotTurns.

Variable search : string -> Z -> outcome (list (gmap string string)).
Variable create : string -> list message -> Q -> Z -> outcome (list string).
Variable deployment : string.

Local Abbreviation turn := (generate_answer search create deployment).

(** The heap a call that comes back leaves: the caller's list with the two
    messages of the turn, the deep copy with the two messages of the prompt,
    and everything else as it was. *)
Lemma generate_answer_heap (q : string) (h : loc) (H : gmap loc (list message))
    (L : list (gmap loc (list message))) (hist : list message)
    (results : list (gmap string string)) (answer : string) :
  H !! h = Some hist ->
  search q 10 = Returned results ->
  replied (create deployment (hist ++ [system_message; context_message results q])
             (1 # 5)%Q 1000) answer ->
  (turn q h (ChatState H L)).1 = Returned (answer, h)
  /\ heap (turn q h (ChatState H L)).2
     = <[h := hist ++ [Msg "user" q; Msg "assistant" answer]]>
         (<[fresh (dom H) := hist ++ [system_message; context_message results q]]> H).
Proof.
  intros Hh Hs Hr.
  pose proof (fresh_not_allocated H h hist Hh) as Hw.
  unfold generate_answer, get_top_chunks, try_except, list_append, deepcopy, observe,
    gets, modify, mbind, M_bind, mret, M_ret, lift.
  rewrite Hs. simpl.
  rewrite !deref_insert_eq.
  rewrite (deref_lookup H h hist Hh).
  replace ((hist ++ [Msg "system" system_prompt])
           ++ [Msg "user" (context_prompt (context_text_of (collect_content results [])) q)])
    with (hist ++ [system_message; context_message results q])
    by (now rewrite <- app_assoc).
  inversion Hr as [c rest Hc | Hc | e Hc]; subst; simpl;
    rewrite !deref_insert_eq, !(deref_insert_ne _ _ h) by exact Hw;
    rewrite (deref_lookup H h hist Hh);
    (split; [reflexivity|]);
    now rewrite !insert_insert_eq, <- app_assoc.
Qed.

(** X16: a call that comes back changes one list, the caller's, and
    creates one, the deep copy that carried the prompt; every other list of
    the heap is as it was. *)
Theorem generate_answer_touches_only_the_history (q : string) (h : loc)
    (H : gmap loc (list message)) (L : list (gmap loc (list message)))
    (hist : list message) (results : list (gmap string string)) (answer : string) :
  H !! h = Some hist ->
  search q 10 = Returned results ->
  replied (create deployment (hist ++ [system_message; context_message results q])
             (1 # 5)%Q 1000) answer ->
  (forall l, l <> h -> l <> fresh (dom H) ->
     heap (turn q h (ChatState H L)).2 !! l = H !! l)
  /\ dom (heap (turn q h (ChatState H L)).2) = dom H ∪ {[ fresh (dom H) ]}
  /\ fresh (dom H) ∉ dom H.
Proof.
  intros Hh Hs Hr.
  destruct (generate_answer_heap q h H L hist results answer Hh Hs Hr) as [_ Hheap].
  rewrite Hheap. split; [|split].
  - intros l Hl Hl'. now rewrite !lookup_insert_ne by congruence.
  - rewrite !dom_insert_L.
    assert (Hin : h ∈ dom H) by (apply elem_of_dom; now exists hist).
    apply set_eq. intros x. rewrite !elem_of_union, !elem_of_singleton.
    split; [intros [->|[->|Hx]]; auto | intros [Hx| ->]; auto].
  - apply is_fresh.
Qed.

(** X17: two calls in a row on the same history: the second prompt is the
    history with the first turn (and without the first prompt's system and
    context messages), and the history ends with the two turns in order. *)
Theorem generate_answer_two_turns (q1 q2 : string) (h : loc)
    (H : gmap loc (list message)) (hist : list message)
    (results1 results2 : list (gmap string string)) (answer1 answer2 : string) :
  H !! h = Some hist ->
  search q1 10 = Returned results1 ->
  replied (create deployment (hist ++ [system_message; context_message results1 q1])
             (1 # 5)%Q 1000) answer1 ->
  search q2 10 = Returned results2 ->
  replied (create deployment
             ((hist ++ [Msg "user" q1; Msg "assistant" answer1])
              ++ [system_message; context_message results2 q2])
             (1 # 5)%Q 1000) answer2 ->
  exists s1 s2,
    turn q1 h (ChatState H []) = (Returned (answer1, h), s1)
    /\ turn q2 h s1 = (Returned (answer2, h), s2)
    /\ heap s2 !! h
       = Some (hist ++ [Msg "user" q1; Msg "assistant" answer1;
                        Msg "user" q2; Msg "assistant" answer2]).
Proof.
  intros Hh Hs1 Hr1 Hs2 Hr2.
  destruct (generate_answer_run search create deployment q1 h H [] hist results1 answer1
              Hh Hs1 Hr1) as (s1 & k1 & Hrun1 & _ & _ & Hh1 & _).
  destruct s1 as [H1 L1]. simpl in Hh1.
  destruct (generate_answer_run search create deployment q2 h H1 L1 _ results2 answer2
              Hh1 Hs2 Hr2) as (s2 & k2 & Hrun2 & _ & _ & Hh2 & _).
  exists (ChatState H1 L1), s2. split; [exact Hrun1|]. split; [exact Hrun2|].
  now rewrite Hh2, <- app_assoc.
Qed.

End ChatbotTurns.

(** ** The Streamlit script *)

Lemma display_page (history : list message) (u : ui_state) :
  display history u
  = (Returned tt,
     UiState (chat u) (session_chat_history u)
       (page u ++ map (fun msg => Markdown (render_message msg)) history)).
Proof.
  revert u. induction history as [|msg history IH]; intros u; simpl.
  - rewrite app_nil_r. now destruct u.
  - rewrite bind_run. unfold emit at 1, modify at 1. rewrite IH. simpl.
    now rewrite <- app_assoc.
Qed.

Section ScriptFacts.

Variable search : string -> Z -> outcome (list (gmap string string)).
Variable create : string -> list message -> Q -> Z -> outcome (list string).
Variable deployment : string.

Local Abbreviation run_script := (script search create deployment).

(** X18: a run with an empty input calls neither the Index Store nor the
    provider, whatever they are: the heap and the session are untouched and
    the page shows the header, the input box and the conversation so far. *)
Theorem script_empty_input_only_displays (u : ui_state) (h : loc) :
  session_chat_history u = Some h ->
  run_script EmptyString u
  = (Returned tt,
     UiState (chat u) (Some h)
       (page u ++ page_header ++ [TextInput "You:" "input"]
        ++ map (fun msg => Markdown (render_message msg)) (deref (heap (chat u)) h))).
Proof.
  intros Hsess. destruct u as [c sess pg]. simpl in Hsess. subst sess.
  unfold script, emit, modify, gets, in_chat, set_session_chat_history,
    mbind, M_bind, mret, M_ret.
  cbn -[display]. rewrite display_page. cbn.
  rewrite <- !app_assoc. reflexivity.
Qed.

(** X19: the first run of a session, with an empty input: the history is
    created as a new empty list, kept in the session, and the page shows the
    header and the input box only. *)
Theorem script_first_run_creates_history (u : ui_state) :
  session_chat_history u = None ->
  run_script EmptyString u
  = (Returned tt,
     UiState
       (ChatState (<[fresh (dom (heap (chat u))) := []]> (heap (chat u)))
          (seen (chat u) ++ [<[fresh (dom (heap (chat u))) := []]> (heap (chat u))]))
       (Some (fresh (dom (heap (chat u)))))
       (page u ++ page_header ++ [TextInput "You:" "input"])).
Proof.
  intros Hsess. destruct u as [c sess pg]. simpl in Hsess. subst sess.
  unfold script, emit, modify, gets, in_chat, set_session_chat_history, new_list,
    mbind, M_bind, mret, M_ret.
  cbn -[display fresh]. rewrite deref_insert_eq. cbn -[fresh].
  rewrite <- !app_assoc. reflexivity.
Qed.

(** X20: a run with a query that is answered shows the conversation so far
    followed by the new turn, the query as [You] and the answer as [Bot], and
    leaves the turn in the session's history. *)
Theorem script_shows_the_new_turn (q : string) (u : ui_state) (h : loc)
    (hist : list message) (results : list (gmap string string)) (answer : string) :
  session_chat_history u = Some h ->
  heap (chat u) !! h = Some hist ->
  Py.is_empty q = false ->
  search q 10 = Returned results ->
  replied (create deployment (hist ++ [system_message; context_message results q])
             (1 # 5)%Q 1000) answer ->
  exists c',
    run_script q u
    = (Returned tt,
       UiState c' (Some h)
         (page u ++ page_header ++ [TextInput "You:" "input"]
          ++ map (fun msg => Markdown (render_message msg)) hist
          ++ [Markdown ("**You:** " +:+ q); Markdown ("**Bot:** " +:+ answer)]))
    /\ heap c' !! h = Some (hist ++ [Msg "user" q; Msg "assistant" answer]).
Proof.
  intros Hsess Hh Hq Hs Hr.
  destruct u as [[H L] sess pg]. simpl in Hsess, Hh. subst sess.
  destruct (generate_answer_run search create deployment q h H L hist results answer
              Hh Hs Hr) as (s' & k & Hrun & _ & _ & Hh' & _).
  exists s'. split; [|exact Hh'].
  unfold script, emit, modify, gets, in_chat, set_session_chat_history,
    mbind, M_bind, mret, M_ret.
  cbn -[display generate_answer]. rewrite Hq. cbn -[display generate_answer].
  rewrite Hrun. cbn -[display].
  rewrite display_page. cbn.
  rewrite (deref_lookup _ _ _ Hh'), map_app. cbn.
  rewrite <- !app_assoc. reflexivity.
Qed.

(** X21: when the Index Store query raises, the run of the script ends
    with the exception right after the input box: the conversation so far is
    not displayed, and the session and its history are untouched. *)
Theorem script_store_error_shows_nothing (q : string) (u : ui_state) (h : loc) (e : exn) :
  session_chat_history u = Some h ->
  Py.is_empty q = false ->
  search q 10 = Raised e ->
  run_script q u
  = (Raised e,
     UiState (chat u) (Some h) (page u ++ page_header ++ [TextInput "You:" "input"])).
Proof.
  intros Hsess Hq Hs.
  destruct u as [c sess pg]. simpl in Hsess. subst sess.
  unfold script, emit, modify, gets, in_chat, set_session_chat_history,
    mbind, M_bind, mret, M_ret.
  cbn -[display generate_answer]. rewrite Hq. cbn -[display generate_answer].
  rewrite (generate_answer_store_error search create deployment q h c e Hs).
  cbn. rewrite <- !app_assoc. reflexivity.
Qed.

End ScriptFacts.

(** *** The further properties on the fixtures *)

Lemma get_top_chunks_contents_witness :
  exists chunks,
    get_top_chunks two_results "What are the fees?" 10 session
    = (Returned chunks, ChatState (heap session) (seen session ++ [heap session]))
    /\ chunks = ["Fees are listed in section 4."; "Accounts close after 90 days."]
    /\ Forall (fun c => c <> EmptyString) chunks
    /\ (length chunks <= 3)%nat.
Proof.
  pose proof (get_top_chunks_contents two_results "What are the fees?" 10 session
                [ {[ "content" := "Fees are listed in section 4." ]};
                  {[ "title" := "no content here" ]};
                  {[ "content" := "Accounts close after 90 days." ]} ]
                eq_refl) as W.
  vm_compute in W. vm_compute. exact W.
Defined.

Lemma results_without_content_as_no_results_witness :
  generate_answer useless_results echo_provider "chat" "What are the fees?" 1%positive session
  = generate_answer (fun _ _ => Returned []) echo_provider "chat" "What are the fees?"
      1%positive session.
Proof.
  apply (results_without_content_as_no_results useless_results echo_provider "chat"
           "What are the fees?" 1%positive session
           [ {[ "title" := "no content here" ]}; {[ "content" := EmptyString ]} ]).
  - reflexivity.
  - constructor; [left; reflexivity|]. constructor; [right; reflexivity|]. constructor.
Defined.

Lemma generate_answer_touches_only_the_history_witness :
  (forall l, l <> 1%positive ->
     l <> fresh (dom ({[ 1%positive := earlier_turn; 7%positive := [Msg "user" "other"] ]}
                        : gmap loc (list message))) ->
     heap (generate_answer two_results echo_provider "chat" "What are the fees?" 1%positive
             (ChatState {[ 1%positive := earlier_turn; 7%positive := [Msg "user" "other"] ]}
                [])).2 !! l
     = ({[ 1%positive := earlier_turn; 7%positive := [Msg "user" "other"] ]}
          : gmap loc (list message)) !! l)
  /\ dom (heap (generate_answer two_results echo_provider "chat" "What are the fees?"
                  1%positive
                  (ChatState {[ 1%positive := earlier_turn;
                                7%positive := [Msg "user" "other"] ]} [])).2)
     = dom ({[ 1%positive := earlier_turn; 7%positive := [Msg "user" "other"] ]}
              : gmap loc (list message))
       ∪ {[ fresh (dom ({[ 1%positive := earlier_turn; 7%positive := [Msg "user" "other"] ]}
                          : gmap loc (list message))) ]}
  /\ fresh (dom ({[ 1%positive := earlier_turn; 7%positive := [Msg "user" "other"] ]}
                   : gmap loc (list message)))
     ∉ dom ({[ 1%positive := earlier_turn; 7%positive := [Msg "user" "other"] ]}
              : gmap loc (list message)).
Proof.
  apply (generate_answer_touches_only_the_history two_results echo_provider "chat"
           "What are the fees?" 1%positive
           {[ 1%positive := earlier_turn; 7%positive := [Msg "user" "other"] ]} []
           earlier_turn
           [ {[ "content" := "Fees are listed in section 4." ]};
             {[ "title" := "no content here" ]};
             {[ "content" := "Accounts close after 90 days." ]} ]
           "It depends.").
  - reflexivity.
  - reflexivity.
  - apply replied_choice.
Defined.

Lemma generate_answer_two_turns_witness :
  exists s1 s2,
    generate_answer two_results echo_provider "chat" "What are the fees?" 1%positive
      (ChatState {[ 1%positive := earlier_turn ]} [])
    = (Returned ("It depends.", 1%positive), s1)
    /\ generate_answer two_results echo_provider "chat" "And the limits?" 1%positive s1
       = (Returned ("It depends.", 1%positive), s2)
    /\ heap s2 !! 1%positive
       = Some (earlier_turn
               ++ [Msg "user" "What are the fees?"; Msg "assistant" "It depends.";
                   Msg "user" "And the limits?"; Msg "assistant" "It depends."]).
Proof.
  apply (generate_answer_two_turns two_results echo_provider "chat"
           "What are the fees?" "And the limits?" 1%positive
           {[ 1%positive := earlier_turn ]} earlier_turn
           [ {[ "content" := "Fees are listed in section 4." ]};
             {[ "title" := "no content here" ]};
             {[ "content" := "Accounts close after 90 days." ]} ]
           [ {[ "content" := "Fees are listed in section 4." ]};
             {[ "title" := "no content here" ]};
             {[ "content" := "Accounts close after 90 days." ]} ]
           "It depends." "It depends.").
  - reflexivity.
  - reflexivity.
  - apply replied_choice.
  - reflexivity.
  - apply replied_choice.
Defined.

Lemma script_empty_input_only_displays_witness :
  script two_results echo_provider "chat" EmptyString ui_session
  = (Returned tt,
     UiState session (Some 1%positive)
       (page_header ++ [TextInput "You:" "input";
                        Markdown "**You:** hello"; Markdown "**Bot:** hi there"])).
Proof.
  apply (script_empty_input_only_displays two_results echo_provider "chat" ui_session
           1%positive).
  reflexivity.
Defined.

Lemma script_first_run_creates_history_witness :
  script two_results echo_provider "chat" EmptyString ui_first_run
  = (Returned tt,
     UiState
       (ChatState (<[fresh (dom (∅ : gmap loc (list message))) := []]> ∅)
          [<[fresh (dom (∅ : gmap loc (list message))) := []]> ∅])
       (Some (fresh (dom (∅ : gmap loc (list message)))))
       (page_header ++ [TextInput "You:" "input"])).
Proof.
  apply (script_first_run_creates_history two_results echo_provider "chat" ui_first_run).
  reflexivity.
Defined.

Lemma script_shows_the_new_turn_witness :
  exists c',
    script two_results echo_provider "chat" "What are the fees?" ui_session
    = (Returned tt,
       UiState c' (Some 1%positive)
         (page_header
          ++ [TextInput "You:" "input";
              Markdown "**You:** hello"; Markdown "**Bot:** hi there";
              Markdown "**You:** What are the fees?"; Markdown "**Bot:** It depends."]))
    /\ heap c' !! 1%positive
       = Some (earlier_turn ++ [Msg "user" "What are the fees?";
                                Msg "assistant" "It depends."]).
Proof.
  apply (script_shows_the_new_turn two_results echo_provider "chat" "What are the fees?"
           ui_session 1%positive earlier_turn
           [ {[ "content" := "Fees are listed in section 4." ]};
             {[ "title" := "no content here" ]};
             {[ "content" := "Accounts close after 90 days." ]} ]
           "It depends.").
  - reflexivity.
  - reflexivity.
  - reflexivity.
  - reflexivity.
  - apply replied_choice.
Defined.

Lemma script_store_error_shows_nothing_witness :
  script store_down echo_provider "chat" "What are the fees?" ui_session
  = (Raised (Exn StoreError "index unavailable"),
     UiState session (Some 1%positive) (page_header ++ [TextInput "You:" "input"])).
Proof.
  apply (script_store_error_shows_nothing store_down echo_provider "chat"
           "What are the fees?" ui_session 1%positive).
  - reflexivity.
  - reflexivity.
  - reflexivity.
Defined.

(** ** Chunks are normalised; a refused upload *)

(** X22: every chunk is its own words joined by single spaces: whatever
    the whitespace of the text was, a chunk has no leading, trailing or
    repeated whitespace. *)
Theorem chunk_text_chunks_normalised (text : string) (chunk_size overlap : Z) (fuel : nat)
    (chunks : list string) :
  0 <= overlap < chunk_size ->
  (length (Py.split text) < fuel)%nat ->
  chunk_text fuel text chunk_size overlap = Returned chunks ->
  Forall (fun c => Py.join " " (Py.split c) = c) chunks.
Proof.
  intros Hv Hfuel Hrun.
  rewrite chunk_text_windows in Hrun by assumption. injection Hrun as <-.
  apply Forall_forall. intros c Hc.
  apply list_elem_of_fmap in Hc as (i & -> & _).
  rewrite split_join; [reflexivity|].
  unfold window. apply Forall_take, Forall_drop, split_words.
Qed.

Lemma chunk_text_chunks_normalised_witness :
  Forall (fun c => Py.join " " (Py.split c) = c) ["a b c"; "c d e"; "e f g"; "g"].
Proof.
  apply (chunk_text_chunks_normalised "  a b	c   d e
f g " 3 1 8); [lia | vm_compute; lia | reflexivity].
Defined.

Section IngestionUpload.

Context {vector : Type}.
Variable embed : string -> outcome vector.
Variable uuid4 : nat -> string.
Variable upload_fault : list (record vector) -> option exn.

(** X23: when the Index Store refuses the upload of a document, the
    exception ends the run: the corpus is unchanged and no [Uploaded] line is
    printed for the document. *)
Theorem process_blob_upload_error (fuel : nat) (b : blob) (text : string)
    (chunks : list string) (vec : string -> vector) (e : exn) (s : ingest_state vector) :
  Py.endswith (blob_name b) ".pdf" = true ->
  read_pdf_from_blob b = Returned text ->
  chunk_text fuel text default_chunk_size default_overlap = Returned chunks ->
  chunks <> [] ->
  Forall (fun c => embed c = Returned (vec c)) chunks ->
  upload_fault (imap (fun i c => Record_ (uuid4 (uuids_drawn s + i)) c (vec c)) chunks)
  = Some e ->
  process_blob vector embed uuid4 upload_fault fuel b s
  = (Raised e,
     IngestState (index_store s) (uuids_drawn s + length chunks)%nat
       (stdout s ++ ["Processing " +:+ blob_name b +:+ " from storage..."])).
Proof.
  intros Hpdf Hread Hchunk Hne Hembed Hup.
  unfold process_blob. rewrite Hpdf.
  rewrite bind_run. unfold print at 1, modify at 1.
  rewrite bind_run. unfold lift at 1. rewrite Hread.
  rewrite bind_run. unfold lift at 1. rewrite Hchunk.
  rewrite bind_run.
  rewrite (embed_chunks_records embed uuid4 vec chunks [] _ Hembed). simpl.
  destruct (imap (fun i c => Record_ (uuid4 (uuids_drawn s + i)) c (vec c)) chunks)
    as [|r records] eqn:Himap.
  - apply (f_equal length) in Himap. rewrite length_imap in Himap.
    destruct chunks; [congruence | discriminate Himap].
  - rewrite bind_run. unfold upload_documents. now rewrite Hup.
Qed.

End IngestionUpload.

(** An Index Store that refuses every upload. *)
Lemma process_blob_upload_error_witness :
  process_blob (list Z) stub_embed stub_uuid4
    (fun _ => Some (Exn StoreError "index unavailable")) 4 big_blob ingest_start
  = (Raised (Exn StoreError "index unavailable"),
     IngestState [] 3 ["Processing big.pdf from storage..."]).
Proof.
  apply (process_blob_upload_error stub_embed stub_uuid4
           (fun _ => Some (Exn StoreError "index unavailable"))
           4 big_blob (thousand_words +:+ nl)
           (map (fun i : nat => Py.join " " (window (Py.split thousand_words) 500 450 i))
              [0; 1; 2]%nat)
           (fun c => [Z.of_nat (String.length c)])
           (Exn StoreError "index unavailable") ingest_start).
  - reflexivity.
  - vm_compute. reflexivity.
  - vm_compute. reflexivity.
  - discriminate.
  - repeat constructor.
  - reflexivity.
Defined.
